(** * HackerNews ranking scraper: field parsers, record extractor, page fetcher

    A shallow embedding of [HackerNewsRanking-Analysis/HNScraperTest.py] and
    the properties of its parsers ([parse_age], [parse_comments]), of the
    record extractor ([parse_html]) and of the bounded-retry page fetcher
    ([connect_to_base], [run_process]).

    Conventions of the embedding.
    - A Python [str] is a [string] whose characters are code points below
      256, so that the non-breaking space of the comment link is the single
      character 160 and [len] is [String.length].
    - A Python object is a [pyval]; a call that may raise returns a
      [result], whose [Raise] carries the exception class.
    - A Python [float] is a binary64 [float] of the kernel; [float(str)] and
      [int(str)] are the language's conversions, written out in [py_float]
      and [py_int].
    - The page is the tree BeautifulSoup hands back; the HTML tokenizer is
      the library's and is not part of the embedding. *)

From Stdlib Require Import ZArith List String Ascii Bool Lia.
From Stdlib Require Import DecimalString Floats.
Import ListNotations.

Local Open Scope string_scope.

(** ** Python values, exceptions and results *)

Inductive pyval : Type :=
| PyNone
| PyInt (z : Z)
| PyFloat (f : float)
| PyStr (s : string).

Inductive exn : Type :=
| ValueError
| IndexError
| AttributeError
| TypeError
| OverflowError.

Inductive result (A : Type) : Type :=
| Ok (a : A)
| Raise (e : exn).

Arguments Ok {A} a.
Arguments Raise {A} e.

Definition bind {A B : Type} (r : result A) (k : A -> result B) : result B :=
  match r with
  | Ok a => k a
  | Raise e => Raise e
  end.

Notation "x <- r ;; k" := (bind r (fun x => k))
  (at level 61, r at next level, right associativity).

Definition exn_eqb (a b : exn) : bool :=
  match a, b with
  | ValueError, ValueError
  | IndexError, IndexError
  | AttributeError, AttributeError
  | TypeError, TypeError
  | OverflowError, OverflowError => true
  | _, _ => false
  end.

(** [try: body except E: handler]: the handler runs when the body raises
    [E]; any other exception goes on to the caller. *)
Definition try_except {A : Type} (body : result A) (E : exn) (handler : result A)
  : result A :=
  match body with
  | Ok a => Ok a
  | Raise e => if exn_eqb e E then handler else Raise e
  end.

(** [try: body except Exception: handler]: every exception class of the
    embedding derives from [Exception]. *)
Definition try_except_Exception {A : Type} (body : result A) (handler : result A)
  : result A :=
  match body with
  | Ok a => Ok a
  | Raise _ => handler
  end.

(** ** Strings *)

Definition nbsp : ascii := "160"%char.

(** [s.split(sep)] for a separator of one character. *)
Fixpoint split (sep : ascii) (s : string) : list string :=
  match s with
  | EmptyString => [EmptyString]
  | String c s' =>
      if Ascii.eqb c sep then EmptyString :: split sep s'
      else match split sep s' with
           | [] => [String c EmptyString]
           | w :: ws => String c w :: ws
           end
  end.

(** [s * n] on strings. *)
Fixpoint repeat_string (s : string) (n : nat) : string :=
  match n with
  | O => EmptyString
  | S k => (s ++ repeat_string s k)%string
  end.

(** [l[i]] for a non-negative index. *)
Definition py_index {A : Type} (l : list A) (i : nat) : result A :=
  match nth_error l i with
  | Some a => Ok a
  | None => Raise IndexError
  end.

(** [l.pop()]: the last element of the list. *)
Definition py_pop {A : Type} (l : list A) : result A :=
  match rev l with
  | a :: _ => Ok a
  | [] => Raise IndexError
  end.

(** [v.split(sep)]: only [str] has the method. *)
Definition py_split (v : pyval) (sep : ascii) : result (list string) :=
  match v with
  | PyStr s => Ok (split sep s)
  | _ => Raise AttributeError
  end.

(** [len(v)]. *)
Definition py_len (v : pyval) : result pyval :=
  match v with
  | PyStr s => Ok (PyInt (Z.of_nat (String.length s)))
  | _ => Raise TypeError
  end.

(** [a == b] between a value and a string literal. *)
Definition py_eq_str (v : pyval) (lit : string) : bool :=
  match v with
  | PyStr s => String.eqb s lit
  | _ => false
  end.

(** ** Numeric conversions of the language *)

Definition code (c : ascii) : nat := nat_of_ascii c.

Definition is_digit (c : ascii) : bool :=
  (48 <=? code c)%nat && (code c <=? 57)%nat.

(** ASCII white space, as the C parsers skip it. *)
Definition is_c_space (c : ascii) : bool :=
  ((9 <=? code c)%nat && (code c <=? 13)%nat) || (code c =? 32)%nat.

(** Before parsing, a character from 127 up becomes a blank when it is
    white space (133, 160) and a question mark otherwise: below 256 no such
    character is a decimal digit. *)
Definition to_ascii_digit_or_space (c : ascii) : ascii :=
  if (code c <? 127)%nat then c
  else if (code c =? 133)%nat || (code c =? 160)%nat then " "%char
  else "?"%char.

Fixpoint string_map (f : ascii -> ascii) (s : string) : string :=
  match s with
  | EmptyString => EmptyString
  | String c s' => String (f c) (string_map f s')
  end.

Fixpoint drop_while (p : ascii -> bool) (s : string) : string :=
  match s with
  | EmptyString => EmptyString
  | String c s' => if p c then drop_while p s' else s
  end.

Fixpoint string_rev (s : string) : string :=
  match s with
  | EmptyString => EmptyString
  | String c s' => (string_rev s' ++ String c EmptyString)%string
  end.

Definition strip_c_space (s : string) : string :=
  string_rev (drop_while is_c_space (string_rev (drop_while is_c_space s))).

(** An underscore is accepted between two digits only. *)
Fixpoint underscores_ok (prev : ascii) (s : string) : bool :=
  match s with
  | EmptyString => negb (Ascii.eqb prev "_")
  | String c s' =>
      (if Ascii.eqb c "_" then is_digit prev
       else negb (Ascii.eqb prev "_") || is_digit c)
      && underscores_ok c s'
  end.

Fixpoint remove_underscores (s : string) : string :=
  match s with
  | EmptyString => EmptyString
  | String c s' =>
      if Ascii.eqb c "_" then remove_underscores s'
      else String c (remove_underscores s')
  end.

(** The longest prefix of digits, and what follows it. *)
Fixpoint span_digits (s : string) : string * string :=
  match s with
  | EmptyString => (EmptyString, EmptyString)
  | String c s' =>
      if is_digit c then
        let (ds, r) := span_digits s' in (String c ds, r)
      else (EmptyString, s)
  end.

Fixpoint digits_value (acc : Z) (ds : string) : Z :=
  match ds with
  | EmptyString => acc
  | String c ds' => digits_value (10 * acc + Z.of_nat (code c - 48)) ds'
  end.

Definition take_sign (s : string) : bool * string :=
  match s with
  | String "-" s' => (true, s')
  | String "+" s' => (false, s')
  | _ => (false, s)
  end.

Definition lower (c : ascii) : ascii :=
  if (65 <=? code c)%nat && (code c <=? 90)%nat
  then ascii_of_nat (code c + 32) else c.

(** The binary64 nearest to [n / d] (ties to even), [negative] giving the
    sign; an overflow is an infinity. *)
Definition float_of_ratio (negative : bool) (n d : positive) : float :=
  SF2Prim (SFdiv prec emax (S754_finite negative n 0) (S754_finite false d 0)).

(** The binary64 nearest to [mantissa * 10 ^ e10]. *)
Definition float_of_decimal (negative : bool) (mantissa e10 : Z) : float :=
  if (mantissa =? 0)%Z then (if negative then (-0)%float else 0%float)
  else if (0 <=? e10)%Z
       then float_of_ratio negative (Z.to_pos (mantissa * 10 ^ e10)) 1
       else float_of_ratio negative (Z.to_pos mantissa) (Z.to_pos (10 ^ (- e10))).

(** The exponent part: nothing, or [e] with an optional sign and digits. *)
Definition parse_exponent (s : string) : option Z :=
  match s with
  | EmptyString => Some 0%Z
  | String c s' =>
      if Ascii.eqb (lower c) "e" then
        let (neg, s'') := take_sign s' in
        match span_digits s'' with
        | (String d ds, EmptyString) =>
            let e := digits_value 0 (String d ds) in
            Some (if neg then (- e)%Z else e)
        | _ => None
        end
      else None
  end.

(** [float(s)] on a [str]: [None] stands for [ValueError]. *)
Definition py_float_str (s : string) : option float :=
  let s := string_map to_ascii_digit_or_space s in
  if negb (underscores_ok "000" s) then None else
  let s := strip_c_space (remove_underscores s) in
  let (neg, body) := take_sign s in
  let word := string_map lower body in
  if String.eqb word "inf" || String.eqb word "infinity"
  then Some (if neg then neg_infinity else infinity)
  else if String.eqb word "nan" then Some nan
  else
    let (int_part, r1) := span_digits body in
    let (frac_part, r2) :=
      match r1 with
      | String "." r => span_digits r
      | _ => (EmptyString, r1)
      end in
    match (int_part ++ frac_part)%string with
    | EmptyString => None
    | String _ _ as ds =>
        match parse_exponent r2 with
        | Some e =>
            Some (float_of_decimal neg (digits_value 0 ds)
                    (e - Z.of_nat (String.length frac_part)))
        | None => None
        end
    end.

(** [int(s)] on a [str], base ten: [None] stands for [ValueError]. *)
Definition py_int_str (s : string) : option Z :=
  let s := string_map to_ascii_digit_or_space s in
  let s := drop_while is_c_space s in
  let (neg, body) := take_sign s in
  match body with
  | String c _ =>
      if is_digit c && underscores_ok c body then
        let (ds, r) := span_digits (remove_underscores body) in
        match drop_while is_c_space r with
        | EmptyString =>
            let v := digits_value 0 ds in Some (if neg then (- v)%Z else v)
        | _ => None
        end
      else None
  | EmptyString => None
  end.

(** The binary64 nearest to an integer. *)
Definition float_of_Z (z : Z) : float :=
  SF2Prim (binary_normalize prec emax z 0 false).

(** [float(v)]. *)
Definition py_float (v : pyval) : result pyval :=
  match v with
  | PyStr s =>
      match py_float_str s with
      | Some f => Ok (PyFloat f)
      | None => Raise ValueError
      end
  | PyInt z =>
      if PrimFloat.eqb (PrimFloat.abs (float_of_Z z)) infinity
      then Raise OverflowError else Ok (PyFloat (float_of_Z z))
  | PyFloat f => Ok (PyFloat f)
  | PyNone => Raise TypeError
  end.

(** [int(s)] for a [str] argument, the only use the source makes of it. *)
Definition py_int (s : string) : result pyval :=
  match py_int_str s with
  | Some z => Ok (PyInt z)
  | None => Raise ValueError
  end.

(** [a * b], for the operand types [parse_age] meets. *)
Definition py_mul (a b : pyval) : result pyval :=
  match a, b with
  | PyFloat x, PyInt n => Ok (PyFloat (x * float_of_Z n))
  | PyFloat x, PyFloat y => Ok (PyFloat (x * y))
  | PyInt m, PyInt n => Ok (PyInt (m * n))
  | PyStr s, PyInt n => Ok (PyStr (repeat_string s (Z.to_nat n)))
  | _, _ => Raise TypeError
  end.

(** [a / b], for the operand types [parse_age] meets: the divisor of the
    source is the literal 60, never zero. *)
Definition py_truediv (a b : pyval) : result pyval :=
  match a, b with
  | PyFloat x, PyInt n => Ok (PyFloat (x / float_of_Z n))
  | PyFloat x, PyFloat y => Ok (PyFloat (x / y))
  | _, _ => Raise TypeError
  end.

(** ** Field parsers *)

Definition NA : pyval := PyStr "NA".

(** [parse_age(age)]: the magnitude is converted first, "NA" replacing a
    failed conversion; the unit token is read afterwards and scales whatever
    the first step left in [age_in_hours]. *)
Definition parse_age (age : pyval) : result pyval :=
  age_set <- py_split age " " ;;
  age_in_hours <-
    try_except (magnitude <- py_index age_set 0 ;; py_float (PyStr magnitude))
      ValueError (Ok NA) ;;
  unit <- py_index age_set 1 ;;
  if String.eqb unit "days" then py_mul age_in_hours (PyInt 24)
  else if String.eqb unit "minutes" then py_truediv age_in_hours (PyInt 60)
  else Ok age_in_hours.

(** [parse_comments(comment)]: the assignment under the [if] is followed by
    the [try] statement in every case, which assigns [comments_count] again. *)
Definition parse_comments (comment : pyval) : result pyval :=
  let comments_count : option pyval :=
    if py_eq_str comment "discuss" then Some (PyInt 0) else None in
  comments_count <- try_except (py_float comment) ValueError (Ok NA) ;;
  Ok comments_count.

(** ** The parsed page *)

#[local] Set Warnings "-register-all".

(** A node of the tree: a text node, or a tag with its name, its
    single-valued attributes ([id], [href], ...), the tokens of its [class]
    attribute and its children in document order. *)
Inductive node : Type :=
| NavigableString (s : string)
| Tag (name : string) (attrs : list (string * string)) (classes : list string)
      (contents : list node).

(** The nodes below [n], in document order. *)
Fixpoint descendants (n : node) : list node :=
  match n with
  | NavigableString _ => []
  | Tag _ _ _ contents => flat_map (fun c => c :: descendants c) contents
  end.

Fixpoint assoc (k : string) (l : list (string * string)) : option string :=
  match l with
  | [] => None
  | (k', v) :: l' => if String.eqb k' k then Some v else assoc k l'
  end.

(** [tag.get(key)]. *)
Definition get (n : node) (key : string) : option string :=
  match n with
  | Tag _ attrs _ _ => assoc key attrs
  | NavigableString _ => None
  end.

Definition named (name : string) (n : node) : bool :=
  match n with
  | Tag name' _ _ _ => String.eqb name' name
  | NavigableString _ => false
  end.

Definition has_class (c : string) (n : node) : bool :=
  match n with
  | Tag _ _ classes _ => existsb (String.eqb c) classes
  | NavigableString _ => false
  end.

Definition has_attr (key value : string) (n : node) : bool :=
  match get n key with
  | Some v => String.eqb v value
  | None => false
  end.

(** [root.find_all(...)]: the tags below [root] that match, in document
    order. *)
Definition find_all (root : node) (matches : node -> bool) : list node :=
  filter matches (descendants root).

(** [root.find(...)]: the first match, or [None]. *)
Definition find (root : node) (matches : node -> bool) : option node :=
  List.find matches (descendants root).

(** The [.string] of a node: its text when it is a text node or has a
    single child whose [.string] is that text. *)
Fixpoint string_of (n : node) : option string :=
  match n with
  | NavigableString s => Some s
  | Tag _ _ _ contents =>
      match contents with
      | [c] => string_of c
      | _ => None
      end
  end.

(** [x.string] where [x] is what a lookup returned: an attribute error on
    [None], else a [str] or [None]. *)
Definition dot_string (x : option node) : result pyval :=
  match x with
  | None => Raise AttributeError
  | Some n =>
      Ok (match string_of n with Some s => PyStr s | None => PyNone end)
  end.

(** An identifier inside an f-string: [None] prints as "None". *)
Definition fmt (article_id : option string) : string :=
  match article_id with
  | Some s => s
  | None => "None"
  end.

(** ** Record extractor *)

(** The dictionary built for one item. *)
Record article_info : Type := mk_article_info {
  comments : pyval;
  rank : pyval;
  score : pyval;
  age : pyval;
  title_length : pyval
}.

Definition fieldnames : list string :=
  ["comments"; "rank"; "score"; "age"; "title_length"].

Section PerItem.

Variable soup : node.
Variable entry_td : list node.

(** Step 2: the text of the link whose [href] names the item. *)
Definition lookup_age (article_id : option string) : result pyval :=
  try_except
    (dot_string (find soup (has_attr "href" ("item?id=" ++ fmt article_id))))
    IndexError (Ok NA).

(** Step 3: the text of the score node. *)
Definition lookup_score (article_id : option string) : result pyval :=
  try_except_Exception
    (dot_string (find soup (has_attr "id" ("score_" ++ fmt article_id))))
    (Ok (PyStr "0 points")).

(** Step 4: the text of the last link of the [x]-th subtext cell, up to
    the first non-breaking space. *)
Definition lookup_comments (x : nat) : result pyval :=
  try_except_Exception
    (td <- py_index entry_td x ;;
     a <- py_pop (find_all td (named "a")) ;;
     text <- dot_string (Some a) ;;
     parts <- py_split text nbsp ;;
     first <- py_index parts 0 ;;
     Ok (PyStr first))
    (Ok (PyInt 0)).

(** The body of the loop for the [x]-th item row [tr]; the dictionary's
    values are evaluated in the order they are written. *)
Definition loop_body (x : nat) (tr : node) : result article_info :=
  let article_id := get tr "id" in
  article_age <- lookup_age article_id ;;
  score_text <- lookup_score article_id ;;
  comments_text <- lookup_comments x ;;
  v_comments <- parse_comments comments_text ;;
  v_rank <- (marker <- dot_string (find tr (named "span")) ;; py_float marker) ;;
  v_score <- (tokens <- py_split score_text " " ;;
              first <- py_index tokens 0 ;;
              py_int first) ;;
  v_age <- parse_age article_age ;;
  v_title_length <-
    (title <- dot_string (find tr (has_class "storylink")) ;; py_len title) ;;
  Ok (mk_article_info v_comments v_rank v_score v_age v_title_length).

(** [for x in range(0, len(entry_tr))], from index [x] on, [trs] being the
    rows still to visit. *)
Fixpoint loop (x : nat) (trs : list node) (output_list : list article_info)
  : result (list article_info) :=
  match trs with
  | [] => Ok output_list
  | tr :: rest =>
      article_info <- loop_body x tr ;;
      loop (S x) rest (output_list ++ [article_info])
  end.

End PerItem.

Definition is_entry_tr (n : node) : bool := named "tr" n && has_class "athing" n.
Definition is_entry_td (n : node) : bool := named "td" n && has_class "subtext" n.

(** [parse_html], from the parsed [soup] on. *)
Definition parse_html (soup : node) : result (list article_info) :=
  let output_list := [] in
  let entry_tr := find_all soup is_entry_tr in
  let entry_td := find_all soup is_entry_td in
  loop soup entry_td 0 entry_tr output_list.

(** ** Page fetcher and run loop *)

Inductive csv_row : Type :=
| HeaderRow (names : list string)
| DictRow (row : article_info).

(** What the program acts on: the browser session, the console and the
    output file.  [responses n url] is what the [n]-th navigation of the
    session does when it asks for [url]: [Some page] when the page loads and
    the landmark element [hnmain] shows up within the wait, [None] when the
    load or the wait raises. *)
Record world : Type := mk_world {
  responses : nat -> string -> option node;
  navigations : list string;
  page_source : option node;
  stdout : list string;
  csvfile : list csv_row
}.

Definition string_of_Z (z : Z) : string := NilZero.string_of_int (Z.to_int z).

Definition print (line : string) (w : world) : world :=
  mk_world (responses w) (navigations w) (page_source w)
           (stdout w ++ [line]) (csvfile w).

(** The body of the [try]: [browser.get(base_url)] followed by the wait for
    [hnmain]; [true] when neither raised. *)
Definition navigate (base_url : string) (w : world) : bool * world :=
  match responses w (List.length (navigations w)) base_url with
  | Some page =>
      (true, mk_world (responses w) (navigations w ++ [base_url]) (Some page)
                      (stdout w) (csvfile w))
  | None =>
      (false, mk_world (responses w) (navigations w ++ [base_url])
                       (page_source w) (stdout w) (csvfile w))
  end.

Definition max_attempts : nat := 3.

(** [while connection_attempts < 3], with [remaining] standing for
    [3 - connection_attempts]. *)
Fixpoint connect_loop (remaining : nat) (base_url : string) (w : world)
  : bool * world :=
  match remaining with
  | O => (false, w)
  | S remaining' =>
      let connection_attempts := Z.of_nat (max_attempts - remaining) in
      match navigate base_url w with
      | (true, w') => (true, w')
      | (false, w') =>
          let connection_attempts := (connection_attempts + 1)%Z in
          connect_loop remaining' base_url
            (print ("Attempt #" ++ string_of_Z connection_attempts ++ ".")
               (print ("Error connecting to " ++ base_url ++ ".") w'))
      end
  end.

(** The address of a page of the listing. *)
Definition page_url (page_number : Z) : string :=
  "https://news.ycombinator.com/news?p=" ++ string_of_Z page_number.

Definition connect_to_base (w : world) (page_number : Z) : bool * world :=
  let base_url := page_url page_number in
  connect_loop max_attempts base_url w.

(** [write_to_file]: one row per dictionary, appended to the file. *)
Definition write_to_file (output_list : list article_info) (w : world) : world :=
  mk_world (responses w) (navigations w) (page_source w) (stdout w)
           (csvfile w ++ map DictRow output_list).

(** [run_process]: an exception of the extractor is not caught here.  The
    two-second [sleep] only passes time and is left out; a navigation that
    succeeded has stored its page, so [page_source] is read from it. *)
Definition run_process (page_number : Z) (w : world) : result world :=
  match connect_to_base w page_number with
  | (true, w') =>
      html <- match page_source w' with
              | Some page => Ok page
              | None => Raise AttributeError
              end ;;
      output_list <- parse_html html ;;
      Ok (write_to_file output_list w')
  | (false, w') => Ok (print "Error connecting to hackernews" w')
  end.

(** [while page <= max_pages], with [remaining] standing for
    [max_pages + 1 - page]. *)
Fixpoint pages_loop (remaining : nat) (page : Z) (w : world) : result world :=
  match remaining with
  | O => Ok w
  | S remaining' =>
      w1 <- run_process page
              (print ("Analyzing page #" ++ string_of_Z page ++ "...") w) ;;
      pages_loop remaining' (page + 1)%Z w1
  end.

(** The main block: pages 1 to 5, after the header row is written. *)
Definition main (w : world) : result world :=
  let page := 1%Z in
  let max_pages := 5%Z in
  let w := mk_world (responses w) (navigations w) (page_source w) (stdout w)
                    (csvfile w ++ [HeaderRow fieldnames]) in
  pages_loop (Z.to_nat (max_pages + 1 - page)) page w.

(** ** Vocabulary of the statements *)

(** Whether the character [c] occurs in [s]. *)
Fixpoint contains (c : ascii) (s : string) : bool :=
  match s with
  | EmptyString => false
  | String c' s' => Ascii.eqb c' c || contains c s'
  end.

(** The age in hours for a magnitude and a unit token. *)
Definition hours (magnitude : float) (unit : string) : float :=
  if String.eqb unit "days" then (magnitude * 24)%float
  else if String.eqb unit "minutes" then (magnitude / 60)%float
  else magnitude.

(** The comment count an item ends with: steps 4 and the call of the
    comment parser. *)
Definition comments_step (entry_td : list node) (x : nat) : result pyval :=
  comments_text <- lookup_comments entry_td x ;; parse_comments comments_text.

(** What a well-formed item node carries besides its comment link: the
    magnitude and unit of its age, its rank, its score and its title. *)
Record item_fields : Type := mk_item_fields {
  f_magnitude : float;
  f_unit : string;
  f_rank : float;
  f_score : Z;
  f_title : string
}.

(** The age link of the item is found, and its text starts with a magnitude
    that converts, followed by a unit token. *)
Definition age_link_ok (soup tr : node) (magnitude : float) (unit : string) : Prop :=
  exists (a : node) (text m : string) (rest : list string),
    find soup (has_attr "href" ("item?id=" ++ fmt (get tr "id"))) = Some a
    /\ string_of a = Some text
    /\ split " " text = m :: unit :: rest
    /\ py_float_str m = Some magnitude.

(** The rank marker of the item is found and its text converts. *)
Definition rank_ok (tr : node) (r : float) : Prop :=
  exists (sp : node) (marker : string),
    find tr (named "span") = Some sp
    /\ string_of sp = Some marker
    /\ py_float_str marker = Some r.

(** The score node of the item is missing, or its text starts with an
    integer. *)
Definition score_ok (soup tr : node) (z : Z) : Prop :=
  (find soup (has_attr "id" ("score_" ++ fmt (get tr "id"))) = None /\ z = 0%Z)
  \/ (exists (sc : node) (text : string),
        find soup (has_attr "id" ("score_" ++ fmt (get tr "id"))) = Some sc
        /\ string_of sc = Some text
        /\ py_int_str (hd EmptyString (split " " text)) = Some z).

(** The title link of the item is found and has a text. *)
Definition title_ok (tr : node) (title : string) : Prop :=
  exists t : node,
    find tr (has_class "storylink") = Some t /\ string_of t = Some title.

Definition well_formed_item (soup tr : node) (fl : item_fields) : Prop :=
  age_link_ok soup tr (f_magnitude fl) (f_unit fl)
  /\ rank_ok tr (f_rank fl)
  /\ score_ok soup tr (f_score fl)
  /\ title_ok tr (f_title fl).

(** The record of a well-formed item with comment count [c]. *)
Definition record_of (c : pyval) (fl : item_fields) : article_info :=
  mk_article_info c (PyFloat (f_rank fl)) (PyInt (f_score fl))
    (PyFloat (hours (f_magnitude fl) (f_unit fl)))
    (PyInt (Z.of_nat (String.length (f_title fl)))).

(** Every item row of the page is well formed. *)
Definition well_formed_page (soup : node) : Prop :=
  Forall (fun tr => exists fl, well_formed_item soup tr fl)
         (find_all soup is_entry_tr).



(** ** Sample pages *)

Definition text_tag (name : string) (attrs : list (string * string))
  (classes : list string) (text : string) : node :=
  Tag name attrs classes [NavigableString text].

(** An item row: rank marker and title link. *)
Definition item_row (id marker title : string) : node :=
  Tag "tr" [("id", id)] ["athing"]
    [Tag "td" [] ["title"] [text_tag "span" [] ["rank"] marker];
     Tag "td" [] ["title"]
       [text_tag "a" [("href", "https://example.com/")] ["storylink"] title]].

Definition score_span (id text : string) : node :=
  text_tag "span" [("id", "score_" ++ id)] ["score"] text.

Definition age_span (id text : string) : node :=
  Tag "span" [] ["age"] [text_tag "a" [("href", "item?id=" ++ id)] [] text].

Definition comments_link (id text : string) : node :=
  text_tag "a" [("href", "item?id=" ++ id)] [] text.

(** The metadata row of an item. *)
Definition subtext_row (cells : list node) : node :=
  Tag "tr" [] [] [Tag "td" [] ["subtext"] cells].

Definition page_of (rows : list node) : node :=
  Tag "[document]" [] [] [Tag "table" [("id", "hnmain")] [] rows].

Definition five_comments : string := "5" ++ String nbsp "comments".

(** Two complete items whose rank markers read 2 and 1. *)
Definition page_markers_2_1 : node :=
  page_of
    [item_row "101" "2." "First story";
     subtext_row [score_span "101" "10 points"; age_span "101" "3 hours ago";
                  comments_link "101" five_comments];
     item_row "102" "1." "Second story";
     subtext_row [score_span "102" "7 points"; age_span "102" "2 days ago";
                  comments_link "102" "discuss"]].

(** One item whose metadata row has no age link. *)
Definition page_no_age_link : node :=
  page_of
    [item_row "101" "1." "First story";
     subtext_row [score_span "101" "10 points"]].

(** Two items, the first without a title link. *)
Definition item_102 : node := item_row "102" "2." "Second story".

Definition page_first_untitled : node :=
  page_of
    [Tag "tr" [("id", "101")] ["athing"]
       [Tag "td" [] ["title"] [text_tag "span" [] ["rank"] "1."]];
     subtext_row [score_span "101" "10 points"; age_span "101" "3 hours ago";
                  comments_link "101" five_comments];
     item_102;
     subtext_row [score_span "102" "7 points"; age_span "102" "2 days ago";
                  comments_link "102" five_comments]].

(** One complete item whose age reads "soon days". *)
Definition page_age_soon_days : node :=
  page_of
    [item_row "101" "1." "First story";
     subtext_row [score_span "101" "10 points"; age_span "101" "soon days";
                  comments_link "101" five_comments]].

(** Two items with a single metadata row; the second is a job posting with
    neither score nor comment link. *)
Definition page_one_subtext : node :=
  page_of
    [item_row "101" "1." "First story";
     subtext_row [score_span "101" "10 points"; age_span "101" "3 hours ago";
                  comments_link "101" five_comments];
     item_row "102" "2." "Second story";
     Tag "tr" [] [] [Tag "td" [] [] [age_span "102" "45 minutes ago"]]].

(** One item row without an [id]; the metadata row is keyed by the text
    "None". *)
Definition page_no_identifier : node :=
  page_of
    [Tag "tr" [] ["athing"]
       [Tag "td" [] ["title"] [text_tag "span" [] ["rank"] "1."];
        Tag "td" [] ["title"]
          [text_tag "a" [("href", "https://example.com/")] ["storylink"]
             "First story"]];
     subtext_row [score_span "None" "10 points"; age_span "None" "3 hours ago";
                  comments_link "None" five_comments]].

(** Two items; the second has no metadata row at all, so that the page has
    one subtext cell for two item rows and no link for the second item. *)
Definition page_missing_metadata_row : node :=
  page_of
    [item_row "101" "1." "First story";
     subtext_row [score_span "101" "10 points"; age_span "101" "3 hours ago";
                  comments_link "101" five_comments];
     item_row "102" "2." "Second story"].

(** One item and no metadata row. *)
Definition page_no_metadata_rows : node :=
  page_of [item_row "101" "1." "First story"].

(** A session whose every navigation fails. *)
Definition offline : world :=
  mk_world (fun _ _ => None) [] None [] [].

(** A session whose every navigation succeeds, except the first three. *)
Definition online_after_three : world :=
  mk_world (fun n _ => if (n <? 3)%nat then None else Some page_one_subtext)
           [] None [] [].

(** Two items, the second without a rank marker. *)
Definition page_second_unranked : node :=
  page_of
    [item_row "101" "1." "First story";
     subtext_row [score_span "101" "10 points"; age_span "101" "3 hours ago";
                  comments_link "101" five_comments];
     Tag "tr" [("id", "102")] ["athing"]
       [Tag "td" [] ["title"]
          [text_tag "a" [("href", "https://example.com/")] ["storylink"]
             "Second story"]];
     subtext_row [score_span "102" "7 points"; age_span "102" "2 days ago";
                  comments_link "102" five_comments]].

(** One complete item whose score reads "ten points". *)
Definition page_score_ten_points : node :=
  page_of
    [item_row "101" "1." "First story";
     subtext_row [score_span "101" "ten points"; age_span "101" "3 hours ago";
                  comments_link "101" five_comments]].

(** A session whose every navigation succeeds with the same page. *)
Definition online : world :=
  mk_world (fun _ _ => Some page_one_subtext) [] None [] [].

(** A session whose second navigation is the first to succeed. *)
Definition online_at_second : world :=
  mk_world (fun n _ => if (n =? 1)%nat then Some page_one_subtext else None)
           [] None [] [].

(** No navigation of the session ever succeeds. *)
Definition never_responds (w : world) : Prop :=
  forall n url, responses w n url = None.

(** The page numbers of [n] successive iterations of the page loop that
    starts at [page]. *)
Fixpoint pages_from (page : Z) (n : nat) : list Z :=
  match n with
  | O => []
  | S k => page :: pages_from (page + 1)%Z k
  end.

(** A session whose every navigation loads [page_no_age_link]. *)
Definition online_no_age_link : world :=
  mk_world (fun _ _ => Some page_no_age_link) [] None [] [].

(** The state a run of the main block ends in, when it returns. *)
Definition final_world (w : world) : world :=
  match main w with
  | Ok w' => w'
  | Raise _ => w
  end.

(** The next [n] navigations of the session to [url] all fail. *)
Definition next_fail (n : nat) (url : string) (w : world) : Prop :=
  forall k, k < n ->
    responses w (List.length (navigations w) + k) url = None.

(** Solves the well-formedness of an item of a sample page. *)
Ltac item_is_well_formed fl :=
  exists fl; unfold well_formed_item, age_link_ok, rank_ok, score_ok, title_ok;
  repeat match goal with
         | |- _ /\ _ => split
         | |- exists _, _ => eexists
         | |- _ = _ => reflexivity
         | |- _ \/ _ => first [left; split; reflexivity
                              | right; do 2 eexists; repeat split; reflexivity]
         end.

(** * Properties *)

(** ** Strings and results *)

Lemma split_without_sep (sep : ascii) (s : string) :
  contains sep s = false -> split sep s = [s].
Proof.
  induction s as [|c s IH]; simpl; intros H; [reflexivity|].
  apply orb_false_iff in H as [Hc Hs].
  rewrite Hc, (IH Hs). reflexivity.
Qed.

Lemma split_app_sep (sep : ascii) (m t : string) :
  contains sep m = false ->
  split sep (m ++ String sep t) = m :: split sep t.
Proof.
  induction m as [|c m IH]; simpl; intros H.
  - rewrite Ascii.eqb_refl. reflexivity.
  - apply orb_false_iff in H as [Hc Hm].
    rewrite Hc, (IH Hm). reflexivity.
Qed.

Lemma split_nonempty (sep : ascii) (s : string) : split sep s <> [].
Proof.
  destruct s as [|c s]; simpl; [discriminate|].
  destruct (Ascii.eqb c sep); [discriminate|].
  destruct (split sep s); discriminate.
Qed.

Lemma float_of_Z_24 : float_of_Z 24 = 24%float.
Proof. vm_compute. reflexivity. Qed.

Lemma float_of_Z_60 : float_of_Z 60 = 60%float.
Proof. vm_compute. reflexivity. Qed.

(** What [parse_age] does on a text of at least two tokens whose magnitude
    converts. *)
Lemma parse_age_tokens (text m u : string) (rest : list string) (f : float) :
  split " " text = m :: u :: rest ->
  py_float_str m = Some f ->
  parse_age (PyStr text) = Ok (PyFloat (hours f u)).
Proof.
  intros Hsplit Hf. unfold parse_age, hours. simpl. rewrite Hsplit. simpl.
  rewrite Hf. simpl.
  destruct (String.eqb u "days"); simpl.
  - rewrite float_of_Z_24. reflexivity.
  - destruct (String.eqb u "minutes"); simpl;
      [rewrite float_of_Z_60|]; reflexivity.
Qed.

(** ** Field parsers *)

(** C1: the comment-count parser returns the number for a numeric text and
    "NA" for any other text; the placeholder "discuss" is such a text, so the
    parser returns "NA" for it and not 0: the assignment of 0 is overwritten
    by the [try] statement that follows it. *)
Theorem parse_comments_discuss_is_NA :
  parse_comments (PyStr "discuss") = Ok NA
  /\ parse_comments (PyStr "42") = Ok (PyFloat 42)
  /\ parse_comments (PyStr "forty-two") = Ok NA
  /\ (forall s : string,
        parse_comments (PyStr s)
        = Ok (match py_float_str s with Some f => PyFloat f | None => NA end)).
Proof.
  repeat split; try (vm_compute; reflexivity).
  intros s. unfold parse_comments. simpl.
  destruct (py_float_str s); reflexivity.
Qed.

(** C2: the age parser neither stays within "a float or NA" nor avoids
    raising.  With a magnitude that does not convert, the unit "hours" gives
    "NA", the unit "days" gives the text "NA" repeated 24 times, and the unit
    "minutes" raises a type error; a text of a single token raises an index
    error, whether its token converts or not. *)
Theorem parse_age_bad_magnitude :
  parse_age (PyStr "abc hours") = Ok NA
  /\ parse_age (PyStr "abc days") = Ok (PyStr (repeat_string "NA" 24))
  /\ parse_age (PyStr "abc minutes") = Raise TypeError
  /\ parse_age (PyStr "abc") = Raise IndexError
  /\ parse_age (PyStr "3") = Raise IndexError.
Proof. repeat split; vm_compute; reflexivity. Qed.

(** C3: on a text of two tokens whose magnitude converts to the float [f],
    the age parser returns [f * 24] for the unit "days", [f / 60] for the
    unit "minutes" and [f] for any other unit; "3 hours" gives 3.0, "2 days"
    gives 48.0 and "45 minutes" gives 0.75. *)
Theorem parse_age_normalizes (magnitude unit : string) (f : float) :
  contains " " magnitude = false ->
  contains " " unit = false ->
  py_float_str magnitude = Some f ->
  parse_age (PyStr (magnitude ++ " " ++ unit))
  = Ok (PyFloat (if String.eqb unit "days" then (f * 24)%float
                 else if String.eqb unit "minutes" then (f / 60)%float
                 else f))
  /\ parse_age (PyStr "3 hours") = Ok (PyFloat 3)
  /\ parse_age (PyStr "2 days") = Ok (PyFloat 48)
  /\ parse_age (PyStr "45 minutes") = Ok (PyFloat 0.75).
Proof.
  intros Hm Hu Hf. split; [|repeat split; vm_compute; reflexivity].
  apply (parse_age_tokens _ magnitude unit []); [|exact Hf].
  change (magnitude ++ " " ++ unit)%string
    with (magnitude ++ String " " unit)%string.
  rewrite (split_app_sep _ _ _ Hm), (split_without_sep _ _ Hu). reflexivity.
Qed.

Lemma parse_age_normalizes_witness :
  parse_age (PyStr ("45" ++ " " ++ "minutes"))
  = Ok (PyFloat (if String.eqb "minutes" "days" then (45 * 24)%float
                 else if String.eqb "minutes" "minutes" then (45 / 60)%float
                 else 45%float))
  /\ parse_age (PyStr "3 hours") = Ok (PyFloat 3)
  /\ parse_age (PyStr "2 days") = Ok (PyFloat 48)
  /\ parse_age (PyStr "45 minutes") = Ok (PyFloat 0.75).
Proof.
  apply (parse_age_normalizes "45" "minutes" 45%float); reflexivity.
Defined.

(** ** Record extractor: one item *)

Lemma bind_Ok_inv {A B : Type} (r : result A) (k : A -> result B) (b : B) :
  bind r k = Ok b -> exists a, r = Ok a /\ k a = Ok b.
Proof.
  destruct r as [a|e]; simpl; intros H; [|discriminate].
  exists a. split; [reflexivity|exact H].
Qed.

Lemma py_index_0_split (sep : ascii) (s : string) :
  py_index (split sep s) 0 = Ok (hd EmptyString (split sep s)).
Proof.
  pose proof (split_nonempty sep s) as H.
  destruct (split sep s) as [|w ws]; [contradiction|reflexivity].
Qed.

(** The comment lookup never raises: it yields a text or the integer 0. *)
Lemma lookup_comments_total (entry_td : list node) (x : nat) :
  exists v, lookup_comments entry_td x = Ok v
            /\ (v = PyInt 0 \/ exists s, v = PyStr s).
Proof.
  unfold lookup_comments, try_except_Exception.
  match goal with |- context [match ?b with Ok _ => _ | Raise _ => _ end] =>
    destruct b as [v|e] eqn:E end.
  - exists v. split; [reflexivity|]. right.
    apply bind_Ok_inv in E as (td & _ & E).
    apply bind_Ok_inv in E as (a & _ & E).
    apply bind_Ok_inv in E as (text & _ & E).
    apply bind_Ok_inv in E as (parts & _ & E).
    apply bind_Ok_inv in E as (first & _ & E).
    exists first. congruence.
  - exists (PyInt 0). split; [reflexivity|left; reflexivity].
Qed.

Lemma parse_comments_zero : parse_comments (PyInt 0) = Ok (PyFloat 0).
Proof. vm_compute. reflexivity. Qed.

Lemma parse_comments_str (s : string) :
  parse_comments (PyStr s)
  = Ok (match py_float_str s with Some f => PyFloat f | None => NA end).
Proof. unfold parse_comments. simpl. destruct (py_float_str s); reflexivity. Qed.

(** Steps 4 and the comment parser together never raise: the count is a
    float or "NA". *)
Lemma comments_step_total (entry_td : list node) (x : nat) :
  exists c, comments_step entry_td x = Ok c
            /\ (c = NA \/ exists f, c = PyFloat f).
Proof.
  unfold comments_step.
  destruct (lookup_comments_total entry_td x) as (v & Hv & [->|[s ->]]);
    rewrite Hv; simpl.
  - exists (PyFloat 0). split; [apply parse_comments_zero|right; eauto].
  - rewrite parse_comments_str. eexists. split; [reflexivity|].
    destruct (py_float_str s); [right; eauto|left; reflexivity].
Qed.

(** A missing subtext cell gives the comment count 0.0. *)
Lemma comments_step_out_of_range (entry_td : list node) (x : nat) :
  nth_error entry_td x = None ->
  lookup_comments entry_td x = Ok (PyInt 0)
  /\ comments_step entry_td x = Ok (PyFloat 0).
Proof.
  intros H. unfold comments_step, lookup_comments, py_index.
  rewrite H. simpl. split; [reflexivity|apply parse_comments_zero].
Qed.

(** The score lookup never raises. *)
Lemma lookup_score_total (soup : node) (article_id : option string) :
  exists v, lookup_score soup article_id = Ok v.
Proof.
  unfold lookup_score, try_except_Exception.
  destruct (dot_string _) as [v|e]; eauto.
Qed.

Lemma lookup_score_missing (soup : node) (article_id : option string) :
  find soup (has_attr "id" ("score_" ++ fmt article_id)) = None ->
  lookup_score soup article_id = Ok (PyStr "0 points").
Proof. unfold lookup_score. intros ->. reflexivity. Qed.

(** The default score text gives the score 0. *)
Lemma score_of_default_text :
  (tokens <- py_split (PyStr "0 points") " " ;;
   first <- py_index tokens 0 ;; py_int first) = Ok (PyInt 0).
Proof. vm_compute. reflexivity. Qed.

(** The score of an item whose score node is missing or starts with an
    integer. *)
Lemma score_step_ok (soup tr : node) (z : Z) :
  score_ok soup tr z ->
  exists score_text,
    lookup_score soup (get tr "id") = Ok score_text
    /\ (tokens <- py_split score_text " " ;;
        first <- py_index tokens 0 ;; py_int first) = Ok (PyInt z).
Proof.
  unfold score_ok, lookup_score.
  intros [[E ->]|(sc & text & E & Htext & Hint)]; rewrite E.
  - exists (PyStr "0 points"). split; reflexivity.
  - exists (PyStr text). simpl. rewrite Htext. simpl.
    split; [reflexivity|].
    rewrite py_index_0_split. simpl. unfold py_int. rewrite Hint. reflexivity.
Qed.

(** The record of a well-formed item. *)
Lemma loop_body_well_formed (soup : node) (entry_td : list node) (x : nat)
  (tr : node) (fl : item_fields) :
  well_formed_item soup tr fl ->
  exists c, comments_step entry_td x = Ok c
            /\ loop_body soup entry_td x tr = Ok (record_of c fl).
Proof.
  intros ((a & text & m & rest & Ha & Htext & Hsplit & Hm)
          & (sp & marker & Hsp & Hmarker & Hr)
          & Hscore
          & (t & Ht & Htitle)).
  destruct (comments_step_total entry_td x) as (c & Hc & _).
  exists c. split; [exact Hc|].
  destruct (score_step_ok soup tr _ Hscore) as (score_text & Hlook & Hint).
  unfold comments_step in Hc.
  apply bind_Ok_inv in Hc as (comments_text & Hlc & Hpc).
  unfold loop_body, lookup_age.
  rewrite Ha. simpl. rewrite Htext. simpl.
  rewrite Hlook. simpl. rewrite Hlc. simpl. rewrite Hpc. simpl.
  rewrite Hsp. simpl. rewrite Hmarker. simpl. rewrite Hr. simpl.
  rewrite Hint. simpl.
  rewrite (parse_age_tokens _ _ _ _ _ Hsplit Hm). simpl.
  rewrite Ht. simpl. rewrite Htitle. reflexivity.
Qed.

(** What a returned record says about the steps that built it. *)
Lemma loop_body_Ok_inv (soup : node) (entry_td : list node) (x : nat)
  (tr : node) (r : article_info) :
  loop_body soup entry_td x tr = Ok r ->
  exists article_age score_text comments_text,
    lookup_age soup (get tr "id") = Ok article_age
    /\ lookup_score soup (get tr "id") = Ok score_text
    /\ lookup_comments entry_td x = Ok comments_text
    /\ parse_comments comments_text = Ok (comments r)
    /\ (marker <- dot_string (find tr (named "span")) ;; py_float marker)
       = Ok (rank r)
    /\ (tokens <- py_split score_text " " ;;
        first <- py_index tokens 0 ;; py_int first) = Ok (score r)
    /\ parse_age article_age = Ok (age r)
    /\ (title <- dot_string (find tr (has_class "storylink")) ;; py_len title)
       = Ok (title_length r).
Proof.
  unfold loop_body. intros H.
  apply bind_Ok_inv in H as (article_age & H1 & H).
  apply bind_Ok_inv in H as (score_text & H2 & H).
  apply bind_Ok_inv in H as (comments_text & H3 & H).
  apply bind_Ok_inv in H as (vc & H4 & H).
  apply bind_Ok_inv in H as (vr & H5 & H).
  apply bind_Ok_inv in H as (vs & H6 & H).
  apply bind_Ok_inv in H as (va & H7 & H).
  apply bind_Ok_inv in H as (vt & H8 & H).
  injection H as <-. simpl.
  exists article_age, score_text, comments_text. repeat split; assumption.
Qed.

(** An item whose rank marker or title cannot be read makes the loop body
    raise. *)
Lemma loop_body_required_field (soup : node) (entry_td : list node) (x : nat)
  (tr : node) :
  (forall r, ~ rank_ok tr r) \/ (forall t, ~ title_ok tr t) ->
  exists e, loop_body soup entry_td x tr = Raise e.
Proof.
  intros Hmissing.
  destruct (loop_body soup entry_td x tr) as [r|e] eqn:E; [|eauto].
  exfalso.
  apply loop_body_Ok_inv in E
    as (_ & _ & _ & _ & _ & _ & _ & Hrank & _ & _ & Htitle).
  destruct Hmissing as [Hno|Hno].
  - destruct (find tr (named "span")) as [sp|] eqn:Hsp; [|discriminate].
    simpl in Hrank. destruct (string_of sp) as [marker|] eqn:Hm; [|discriminate].
    simpl in Hrank. destruct (py_float_str marker) as [f|] eqn:Hf; [|discriminate].
    apply (Hno f). exists sp, marker. auto.
  - destruct (find tr (has_class "storylink")) as [t|] eqn:Ht; [|discriminate].
    simpl in Htitle. destruct (string_of t) as [title|] eqn:Hs; [|discriminate].
    apply (Hno title). exists t. auto.
Qed.

(** ** Record extractor: the loop over the item rows *)

Section Loop.

Variable soup : node.
Variable entry_td : list node.

Lemma loop_Ok_inv (trs : list node) :
  forall (x : nat) (acc out : list article_info),
    loop soup entry_td x trs acc = Ok out ->
    exists recs,
      out = (acc ++ recs)%list
      /\ List.length recs = List.length trs
      /\ forall k tr, nth_error trs k = Some tr ->
           exists r, nth_error recs k = Some r
                     /\ loop_body soup entry_td (x + k) tr = Ok r.
Proof.
  induction trs as [|tr0 rest IH]; intros x acc out H; simpl in H.
  - injection H as <-. exists []. rewrite app_nil_r.
    repeat split. intros [|k] tr; discriminate.
  - apply bind_Ok_inv in H as (info & Hinfo & H).
    apply IH in H as (recs & -> & Hlen & Hnth).
    exists (info :: recs). rewrite <- app_assoc. simpl.
    repeat split; [simpl; congruence|].
    intros [|k] tr Hk; simpl in Hk.
    + injection Hk as <-. exists info. rewrite Nat.add_0_r. auto.
    + destruct (Hnth k tr Hk) as (r & Hr & Hbody).
      exists r. rewrite Nat.add_succ_r. auto.
Qed.

Lemma loop_all_Ok (trs : list node) :
  forall (x : nat) (acc : list article_info),
    (forall k tr, nth_error trs k = Some tr ->
       exists r, loop_body soup entry_td (x + k) tr = Ok r) ->
    exists out, loop soup entry_td x trs acc = Ok out.
Proof.
  induction trs as [|tr0 rest IH]; intros x acc H; simpl; [eauto|].
  destruct (H 0 tr0 eq_refl) as (r & Hr).
  rewrite Nat.add_0_r in Hr. rewrite Hr. simpl.
  apply IH. intros k tr Hk.
  specialize (H (S k) tr Hk). rewrite Nat.add_succ_r in H. exact H.
Qed.

Lemma loop_raises (trs : list node) :
  forall (x k : nat) (acc : list article_info) (tr : node) (e : exn),
    nth_error trs k = Some tr ->
    loop_body soup entry_td (x + k) tr = Raise e ->
    exists e', loop soup entry_td x trs acc = Raise e'.
Proof.
  induction trs as [|tr0 rest IH]; intros x k acc tr e Hk Hbody.
  - destruct k; discriminate.
  - simpl. destruct k as [|k]; simpl in Hk.
    + injection Hk as ->. rewrite Nat.add_0_r in Hbody.
      rewrite Hbody. simpl. eauto.
    + destruct (loop_body soup entry_td x tr0) as [r|e0]; simpl; [|eauto].
      rewrite Nat.add_succ_r in Hbody. eapply IH; eauto.
Qed.

End Loop.

Lemma parse_html_Ok_inv (soup : node) (recs : list article_info) :
  parse_html soup = Ok recs ->
  List.length recs = List.length (find_all soup is_entry_tr)
  /\ forall k tr, nth_error (find_all soup is_entry_tr) k = Some tr ->
       exists r, nth_error recs k = Some r
                 /\ loop_body soup (find_all soup is_entry_td) k tr = Ok r.
Proof.
  unfold parse_html. intros H.
  apply loop_Ok_inv in H as (recs' & -> & Hlen & Hnth).
  split; [exact Hlen|exact Hnth].
Qed.

(** A page whose item rows are all well formed gives one record per row,
    each the record of its row. *)
Lemma parse_html_well_formed (soup : node) :
  well_formed_page soup ->
  exists recs,
    parse_html soup = Ok recs
    /\ List.length recs = List.length (find_all soup is_entry_tr)
    /\ forall k tr, nth_error (find_all soup is_entry_tr) k = Some tr ->
         exists c fl,
           well_formed_item soup tr fl
           /\ comments_step (find_all soup is_entry_td) k = Ok c
           /\ nth_error recs k = Some (record_of c fl).
Proof.
  intros Hwf. unfold well_formed_page in Hwf. rewrite Forall_forall in Hwf.
  destruct (loop_all_Ok soup (find_all soup is_entry_td)
              (find_all soup is_entry_tr) 0 []) as (recs & Hrecs).
  { intros k tr Hk. destruct (Hwf tr (nth_error_In _ _ Hk)) as (fl & Hfl).
    destruct (loop_body_well_formed soup (find_all soup is_entry_td) k tr fl Hfl)
      as (c & _ & Hbody).
    eauto. }
  exists recs. split; [exact Hrecs|].
  destruct (parse_html_Ok_inv soup recs Hrecs) as (Hlen & Hnth).
  split; [exact Hlen|].
  intros k tr Hk.
  destruct (Hwf tr (nth_error_In _ _ Hk)) as (fl & Hfl).
  destruct (loop_body_well_formed soup (find_all soup is_entry_td) k tr fl Hfl)
    as (c & Hc & Hbody).
  destruct (Hnth k tr Hk) as (r & Hr & Hbody').
  exists c, fl. split; [exact Hfl|]. split; [exact Hc|congruence].
Qed.

(** ** The sample pages *)


Lemma page_one_subtext_well_formed : well_formed_page page_one_subtext.
Proof.
  unfold well_formed_page.
  change (find_all page_one_subtext is_entry_tr)
    with [item_row "101" "1." "First story"; item_row "102" "2." "Second story"].
  repeat constructor.
  - item_is_well_formed (mk_item_fields 3 "hours" 1 10 "First story").
  - item_is_well_formed (mk_item_fields 45 "minutes" 2 0 "Second story").
Qed.

(** ** Record extractor: whole pages *)




(** C5: an item whose age link is not found makes the extractor raise an
    attribute error, which the handler for index errors does not catch: no
    record is produced; and the age parser does not pass "NA" through, it
    raises an index error on it. *)
Theorem parse_html_no_age_link_raises :
  find page_no_age_link (has_attr "href" "item?id=101") = None
  /\ lookup_age page_no_age_link (Some "101") = Raise AttributeError
  /\ parse_html page_no_age_link = Raise AttributeError
  /\ parse_age NA = Raise IndexError.
Proof. repeat split; vm_compute; reflexivity. Qed.

(** C6: on [page_missing_metadata_row] the second item has neither score
    node nor metadata row.  The optional lookups do degrade: the score text
    is "0 points" and the comment text is the integer 0.  But the age link is
    missing with the row, its lookup raises an attribute error that the
    handler for index errors does not catch, and the extraction of the item,
    and with it of the whole page, is aborted: no record with comment count 0
    is produced. *)
Theorem parse_html_missing_metadata_row_raises :
  nth_error (find_all page_missing_metadata_row is_entry_tr) 1
  = Some (item_row "102" "2." "Second story")
  /\ nth_error (find_all page_missing_metadata_row is_entry_td) 1 = None
  /\ lookup_score page_missing_metadata_row (Some "102")
     = Ok (PyStr "0 points")
  /\ lookup_comments (find_all page_missing_metadata_row is_entry_td) 1
     = Ok (PyInt 0)
  /\ lookup_age page_missing_metadata_row (Some "102") = Raise AttributeError
  /\ loop_body page_missing_metadata_row
       (find_all page_missing_metadata_row is_entry_td) 1
       (item_row "102" "2." "Second story") = Raise AttributeError
  /\ parse_html page_missing_metadata_row = Raise AttributeError.
Proof. repeat split; vm_compute; reflexivity. Qed.

(** X18: for every item, the score lookup and the comment lookup never
    raise.  When the score node is not found the score text is "0 points"
    and every record built for the item has score 0; when the subtext cell
    of the item is not found the comment text is the integer 0 and every
    record built for the item has comment count 0.0, which is not "NA"; and
    the record is built as soon as the item's age, rank and title are well
    formed. *)
Theorem optional_fields_default (soup : node) (entry_td : list node) (x : nat)
  (tr : node) :
  (exists v, lookup_score soup (get tr "id") = Ok v)
  /\ (exists v, lookup_comments entry_td x = Ok v)
  /\ (find soup (has_attr "id" ("score_" ++ fmt (get tr "id"))) = None ->
      lookup_score soup (get tr "id") = Ok (PyStr "0 points")
      /\ (forall r, loop_body soup entry_td x tr = Ok r -> score r = PyInt 0)
      /\ (forall fl, well_formed_item soup tr fl ->
            exists r, loop_body soup entry_td x tr = Ok r))
  /\ (nth_error entry_td x = None ->
      lookup_comments entry_td x = Ok (PyInt 0)
      /\ (forall r, loop_body soup entry_td x tr = Ok r ->
            comments r = PyFloat 0 /\ comments r <> NA)
      /\ (forall fl, well_formed_item soup tr fl ->
            exists r, loop_body soup entry_td x tr = Ok r)).
Proof.
  split; [apply lookup_score_total|].
  split; [destruct (lookup_comments_total entry_td x) as (v & Hv & _); eauto|].
  assert (forall fl, well_formed_item soup tr fl ->
            exists r, loop_body soup entry_td x tr = Ok r) as Hbuilt.
  { intros fl Hfl.
    destruct (loop_body_well_formed soup entry_td x tr fl Hfl) as (c & _ & H).
    eauto. }
  split.
  - intros Hmissing.
    pose proof (lookup_score_missing soup (get tr "id") Hmissing) as Hscore.
    split; [exact Hscore|]. split; [|exact Hbuilt].
    intros r Hr.
    apply loop_body_Ok_inv in Hr
      as (a & s & c & _ & Hs & _ & _ & _ & Hint & _).
    rewrite Hscore in Hs. injection Hs as <-.
    rewrite score_of_default_text in Hint. congruence.
  - intros Hmissing.
    destruct (comments_step_out_of_range entry_td x Hmissing) as (Hlook & _).
    split; [exact Hlook|]. split; [|exact Hbuilt].
    intros r Hr.
    apply loop_body_Ok_inv in Hr as (a & s & c & _ & _ & Hc & Hp & _).
    rewrite Hlook in Hc. injection Hc as <-.
    rewrite parse_comments_zero in Hp. injection Hp as Hp.
    rewrite <- Hp. split; [reflexivity|discriminate].
Qed.

Lemma optional_fields_default_witness :
  lookup_score page_one_subtext (Some "102") = Ok (PyStr "0 points")
  /\ lookup_comments (find_all page_one_subtext is_entry_td) 1 = Ok (PyInt 0)
  /\ exists r,
       loop_body page_one_subtext (find_all page_one_subtext is_entry_td) 1
         (item_row "102" "2." "Second story") = Ok r
       /\ score r = PyInt 0
       /\ comments r = PyFloat 0.
Proof.
  pose proof (optional_fields_default page_one_subtext
                (find_all page_one_subtext is_entry_td) 1
                (item_row "102" "2." "Second story"))
    as (_ & _ & Hscore & Hcomments).
  destruct (Hscore eq_refl) as (Hs & Hs0 & Hbuilt).
  destruct (Hcomments eq_refl) as (Hc & Hc0 & _).
  split; [exact Hs|]. split; [exact Hc|].
  assert (exists fl, well_formed_item page_one_subtext
                       (item_row "102" "2." "Second story") fl) as (fl & Hfl).
  { item_is_well_formed (mk_item_fields 45 "minutes" 2 0 "Second story"). }
  destruct (Hbuilt fl Hfl) as (r & Hr).
  exists r. split; [exact Hr|].
  split; [exact (Hs0 r Hr)|exact (proj1 (Hc0 r Hr))].
Defined.

(** C7, as the code has it: an item whose rank marker or title cannot be
    read, and more generally any item whose extraction raises, makes the
    extractor raise for the whole page, so that no record of that page is
    returned; when the extractor does return, it returns exactly one record
    per item node. *)
Theorem parse_html_aborts_whole_page (soup : node) (k : nat) (tr : node) :
  nth_error (find_all soup is_entry_tr) k = Some tr ->
  ((forall r, ~ rank_ok tr r) \/ (forall t, ~ title_ok tr t) ->
   exists e, parse_html soup = Raise e)
  /\ (forall e, loop_body soup (find_all soup is_entry_td) k tr = Raise e ->
        exists e', parse_html soup = Raise e')
  /\ (forall recs, parse_html soup = Ok recs ->
        List.length recs = List.length (find_all soup is_entry_tr)).
Proof.
  intros Hk.
  assert (forall e, loop_body soup (find_all soup is_entry_td) k tr = Raise e ->
            exists e', parse_html soup = Raise e') as Hraise.
  { intros e He. unfold parse_html.
    apply (loop_raises soup _ _ 0 k [] tr e Hk He). }
  split.
  - intros Hmissing.
    destruct (loop_body_required_field soup (find_all soup is_entry_td) k tr
                Hmissing) as (e & He).
    exact (Hraise e He).
  - split; [exact Hraise|].
    intros recs Hrecs. apply (parse_html_Ok_inv soup recs Hrecs).
Qed.

Lemma parse_html_aborts_whole_page_witness :
  (exists e, parse_html page_first_untitled = Raise e)
  /\ (forall recs, parse_html page_first_untitled = Ok recs ->
        List.length recs
        = List.length (find_all page_first_untitled is_entry_tr)).
Proof.
  pose proof (parse_html_aborts_whole_page page_first_untitled 0
                (Tag "tr" [("id", "101")] ["athing"]
                   [Tag "td" [] ["title"] [text_tag "span" [] ["rank"] "1."]])
                eq_refl) as (Hmissing & _ & Hlen).
  split; [|exact Hlen].
  apply Hmissing. right. intros t (n & Hn & _). discriminate Hn.
Defined.

(** C7 as stated fails: on [page_first_untitled] the first item has no
    title link and the second item is well formed; the extractor raises, so
    that the second item gives no record either. *)
Lemma page_first_untitled_returns_nothing :
  nth_error (find_all page_first_untitled is_entry_tr) 1 = Some item_102
  /\ (exists fl, well_formed_item page_first_untitled item_102 fl)
  /\ parse_html page_first_untitled = Raise AttributeError
  /\ ~ (exists recs, parse_html page_first_untitled = Ok recs).
Proof.
  split; [reflexivity|]. split.
  { item_is_well_formed (mk_item_fields 2 "days" 2 7 "Second story"). }
  assert (parse_html page_first_untitled = Raise AttributeError) as H
    by (vm_compute; reflexivity).
  split; [exact H|]. intros (recs & Hrecs). congruence.
Qed.

(** C8: the record built for the item of [page_age_soon_days] has its five
    fields, but its age is the text "NA" repeated 24 times, neither a float
    nor "NA"; its rank and its comment count are floats, where the
    documentation of the extractor announces integers. *)
Theorem parse_html_age_soon_days :
  parse_html page_age_soon_days
  = Ok [mk_article_info (PyFloat 5) (PyFloat 1) (PyInt 10)
          (PyStr (repeat_string "NA" 24)) (PyInt 11)]
  /\ PyStr (repeat_string "NA" 24) <> NA
  /\ String.length (repeat_string "NA" 24) = 48.
Proof.
  split; [vm_compute; reflexivity|].
  split; [discriminate|reflexivity].
Qed.

(** C10: [page_no_metadata_rows] has one item row and no subtext cell.  The
    comment step of the item does not raise: the index error is caught, the
    comment text is the integer 0 and the count is 0.0.  The record is not
    produced, though: the age link is missing with the row, and the
    attribute error of its lookup leaves the extractor. *)
Theorem parse_html_no_metadata_rows_raises :
  List.length (find_all page_no_metadata_rows is_entry_td)
  < List.length (find_all page_no_metadata_rows is_entry_tr)
  /\ py_index (find_all page_no_metadata_rows is_entry_td) 0
     = Raise IndexError
  /\ lookup_comments (find_all page_no_metadata_rows is_entry_td) 0
     = Ok (PyInt 0)
  /\ comments_step (find_all page_no_metadata_rows is_entry_td) 0
     = Ok (PyFloat 0)
  /\ parse_html page_no_metadata_rows = Raise AttributeError.
Proof.
  split; [vm_compute; lia|].
  repeat split; vm_compute; reflexivity.
Qed.

(** X19: when the page has fewer subtext cells than item rows, the comment
    lookup of an item whose index is out of range does not raise: the index
    error is caught, the comment text is the integer 0 and the count is 0.0;
    on a page whose item rows are well formed the records are all produced,
    those of the items out of range with comment count 0.0. *)
Theorem missing_subtext_rows_count_zero (soup : node) :
  (forall x, List.length (find_all soup is_entry_td) <= x ->
     py_index (find_all soup is_entry_td) x = Raise IndexError
     /\ lookup_comments (find_all soup is_entry_td) x = Ok (PyInt 0)
     /\ comments_step (find_all soup is_entry_td) x = Ok (PyFloat 0))
  /\ (well_formed_page soup ->
      exists recs,
        parse_html soup = Ok recs
        /\ List.length recs = List.length (find_all soup is_entry_tr)
        /\ forall x r,
             List.length (find_all soup is_entry_td) <= x ->
             nth_error recs x = Some r ->
             comments r = PyFloat 0).
Proof.
  split.
  - intros x Hx. apply nth_error_None in Hx.
    split; [unfold py_index; rewrite Hx; reflexivity|].
    apply comments_step_out_of_range. exact Hx.
  - intros Hwf.
    destruct (parse_html_well_formed soup Hwf) as (recs & Hrecs & Hlen & Hnth).
    exists recs. split; [exact Hrecs|]. split; [exact Hlen|].
    intros x r Hx Hr.
    assert (x < List.length (find_all soup is_entry_tr)) as Hlt.
    { rewrite <- Hlen. apply nth_error_Some. congruence. }
    destruct (nth_error (find_all soup is_entry_tr) x) as [tr|] eqn:Htr.
    + destruct (Hnth x tr Htr) as (c & fl & _ & Hc & Hr').
      apply nth_error_None in Hx.
      destruct (comments_step_out_of_range _ _ Hx) as (_ & Hzero).
      assert (c = PyFloat 0) as -> by congruence.
      assert (r = record_of (PyFloat 0) fl) as -> by congruence.
      reflexivity.
    + apply nth_error_None in Htr. lia.
Qed.

Lemma missing_subtext_rows_count_zero_witness :
  exists recs,
    parse_html page_one_subtext = Ok recs
    /\ List.length recs = List.length (find_all page_one_subtext is_entry_tr)
    /\ forall x r,
         List.length (find_all page_one_subtext is_entry_td) <= x ->
         nth_error recs x = Some r ->
         comments r = PyFloat 0.
Proof.
  apply (proj2 (missing_subtext_rows_count_zero page_one_subtext)).
  exact page_one_subtext_well_formed.
Defined.

Example page_no_identifier_record :
  parse_html page_no_identifier
  = Ok [mk_article_info (PyFloat 5) (PyFloat 1) (PyInt 10) (PyFloat 3) (PyInt 11)].
Proof. vm_compute. reflexivity. Qed.

(** ** Page fetcher *)

(** The loop asks for the page at least once when it may, at most
    [remaining] times, and touches neither the output file nor the future of
    the session. *)
Lemma connect_loop_frame (remaining : nat) (url : string) :
  forall w,
    responses (snd (connect_loop remaining url w)) = responses w
    /\ csvfile (snd (connect_loop remaining url w)) = csvfile w
    /\ List.length (navigations (snd (connect_loop remaining url w)))
       <= List.length (navigations w) + remaining
    /\ List.length (navigations w)
       <= List.length (navigations (snd (connect_loop remaining url w)))
    /\ (0 < remaining ->
        List.length (navigations w)
        < List.length (navigations (snd (connect_loop remaining url w)))).
Proof.
  induction remaining as [|n IH]; intros w.
  - simpl. repeat split; lia.
  - cbn [connect_loop]. unfold navigate.
    destruct (responses w (List.length (navigations w)) url) as [page|].
    + simpl. rewrite length_app. simpl. repeat split; lia.
    + match goal with |- context [connect_loop n url ?w1] => set (W := w1) end.
      assert (List.length (navigations W) = List.length (navigations w) + 1)
        as HW by (subst W; simpl; rewrite length_app; simpl; lia).
      assert (responses W = responses w) as HWr by reflexivity.
      assert (csvfile W = csvfile w) as HWc by reflexivity.
      clearbody W.
      destruct (IH W) as (Hr & Hc & Hup & Hlow & _).
      rewrite Hr, Hc. repeat split; try assumption; lia.
Qed.

(** When the next [remaining] navigations fail, the loop gives up after
    exactly [remaining] attempts. *)
Lemma connect_loop_all_fail (remaining : nat) (url : string) :
  forall w,
    next_fail remaining url w ->
    fst (connect_loop remaining url w) = false
    /\ List.length (navigations (snd (connect_loop remaining url w)))
       = List.length (navigations w) + remaining.
Proof.
  induction remaining as [|n IH]; intros w Hfail.
  - simpl. split; [reflexivity|lia].
  - cbn [connect_loop]. unfold navigate.
    pose proof (Hfail 0 (Nat.lt_0_succ n)) as H0.
    rewrite Nat.add_0_r in H0. rewrite H0.
    match goal with |- context [connect_loop n url ?w1] =>
      destruct (IH w1) as (Hf & Hlen) end.
    { intros k Hk. simpl. rewrite length_app. simpl.
      replace (List.length (navigations w) + 1 + k)
        with (List.length (navigations w) + S k) by lia.
      apply Hfail. lia. }
    split; [exact Hf|].
    rewrite Hlen. simpl. rewrite length_app. simpl. lia.
Qed.




(** ** The types of the fields *)

(** What the age parser can return. *)
Lemma parse_age_values (v r : pyval) :
  parse_age v = Ok r ->
  (exists f, r = PyFloat f) \/ r = NA \/ r = PyStr (repeat_string "NA" 24).
Proof.
  unfold parse_age. intros H.
  apply bind_Ok_inv in H as (age_set & _ & H).
  apply bind_Ok_inv in H as (age_in_hours & Ha & H).
  apply bind_Ok_inv in H as (unit & _ & H).
  assert ((exists f, age_in_hours = PyFloat f) \/ age_in_hours = NA) as Hcases.
  { unfold try_except in Ha.
    destruct (py_index age_set 0) as [m|e]; simpl in Ha.
    - destruct (py_float_str m) as [f|]; simpl in Ha; injection Ha as <-; eauto.
    - destruct (exn_eqb e ValueError); [injection Ha as <-; auto|discriminate]. }
  destruct (String.eqb unit "days").
  - destruct Hcases as [[f ->]| ->]; simpl in H; injection H as <-; eauto.
  - destruct (String.eqb unit "minutes").
    + destruct Hcases as [[f ->]| ->]; simpl in H; [|discriminate].
      injection H as <-. eauto.
    + injection H as <-. destruct Hcases as [[f ->]| ->]; eauto.
Qed.

(** The types of the five fields of a record built by the loop body: rank
    is a float, score and title length are integers, the comment count is a
    float or "NA", and the age is a float, "NA" or "NA" repeated 24 times. *)
Lemma loop_body_types (soup : node) (entry_td : list node) (x : nat)
  (tr : node) (r : article_info) :
  loop_body soup entry_td x tr = Ok r ->
  (exists f, rank r = PyFloat f)
  /\ (exists z, score r = PyInt z)
  /\ (exists n, title_length r = PyInt (Z.of_nat n))
  /\ ((exists f, comments r = PyFloat f) \/ comments r = NA)
  /\ ((exists f, age r = PyFloat f) \/ age r = NA
      \/ age r = PyStr (repeat_string "NA" 24)).
Proof.
  intros H.
  apply loop_body_Ok_inv in H
    as (a & s & c & _ & _ & Hc & Hpc & Hrank & Hscore & Hage & Htitle).
  repeat split.
  - destruct (dot_string (find tr (named "span"))) as [m|e]; [|discriminate].
    simpl in Hrank. destruct m as [| z | f | m]; simpl in Hrank;
      try discriminate.
    + destruct (PrimFloat.eqb _ _); [discriminate|]. injection Hrank as <-. eauto.
    + injection Hrank as <-. eauto.
    + destruct (py_float_str m); [|discriminate]. injection Hrank as <-. eauto.
  - apply bind_Ok_inv in Hscore as (tokens & _ & Hscore).
    apply bind_Ok_inv in Hscore as (first & _ & Hscore).
    unfold py_int in Hscore. destruct (py_int_str first); [|discriminate].
    injection Hscore as <-. eauto.
  - apply bind_Ok_inv in Htitle as (title & _ & Htitle).
    destruct title; try discriminate. injection Htitle as <-. eauto.
  - destruct (lookup_comments_total entry_td x) as (v & Hv & [->|[t ->]]).
    + assert (c = PyInt 0) as -> by congruence.
      rewrite parse_comments_zero in Hpc. injection Hpc as <-. eauto.
    + assert (c = PyStr t) as -> by congruence.
      rewrite parse_comments_str in Hpc. injection Hpc as <-.
      destruct (py_float_str t); eauto.
  - apply (parse_age_values _ _ Hage).
Qed.

(** X1: every record the extractor returns has the field types of
    [loop_body_types]. *)
Theorem parse_html_record_types (soup : node) (recs : list article_info)
  (r : article_info) :
  parse_html soup = Ok recs ->
  In r recs ->
  (exists f, rank r = PyFloat f)
  /\ (exists z, score r = PyInt z)
  /\ (exists n, title_length r = PyInt (Z.of_nat n))
  /\ ((exists f, comments r = PyFloat f) \/ comments r = NA)
  /\ ((exists f, age r = PyFloat f) \/ age r = NA
      \/ age r = PyStr (repeat_string "NA" 24)).
Proof.
  intros Hrecs Hin.
  destruct (In_nth_error _ _ Hin) as (k & Hk).
  destruct (parse_html_Ok_inv soup recs Hrecs) as (Hlen & Hnth).
  assert (k < List.length (find_all soup is_entry_tr)) as Hlt.
  { rewrite <- Hlen. apply nth_error_Some. congruence. }
  destruct (nth_error (find_all soup is_entry_tr) k) as [tr|] eqn:Htr.
  - destruct (Hnth k tr Htr) as (r' & Hr' & Hbody).
    assert (r' = r) as -> by congruence.
    exact (loop_body_types _ _ _ _ _ Hbody).
  - apply nth_error_None in Htr. lia.
Qed.

Lemma parse_html_record_types_witness :
  (exists f, PyFloat 1 = PyFloat f)
  /\ (exists z, PyInt 10 = PyInt z)
  /\ (exists n, PyInt 11 = PyInt (Z.of_nat n))
  /\ ((exists f, PyFloat 5 = PyFloat f) \/ PyFloat 5 = NA)
  /\ ((exists f, PyStr (repeat_string "NA" 24) = PyFloat f)
      \/ PyStr (repeat_string "NA" 24) = NA
      \/ PyStr (repeat_string "NA" 24) = PyStr (repeat_string "NA" 24)).
Proof.
  apply (parse_html_record_types page_age_soon_days
           [mk_article_info (PyFloat 5) (PyFloat 1) (PyInt 10)
              (PyStr (repeat_string "NA" 24)) (PyInt 11)]
           (mk_article_info (PyFloat 5) (PyFloat 1) (PyInt 10)
              (PyStr (repeat_string "NA" 24)) (PyInt 11))).
  - vm_compute. reflexivity.
  - left. reflexivity.
Defined.

(** * Further properties *)

(** ** Age parser *)

(** X2: a text without a blank has a single token, and the age parser
    raises an index error on it when it reads the unit, whether the token
    converts to a number or not. *)
Theorem parse_age_single_token (text : string) :
  contains " " text = false ->
  parse_age (PyStr text) = Raise IndexError.
Proof.
  intros H. unfold parse_age. simpl.
  rewrite (split_without_sep _ _ H). simpl.
  destruct (py_float_str text); reflexivity.
Qed.

Lemma parse_age_single_token_witness :
  parse_age (PyStr "yesterday") = Raise IndexError.
Proof. apply (parse_age_single_token "yesterday"). reflexivity. Defined.

(** X3: when the first token of a text of two tokens or more does not
    convert to a number, the unit decides the outcome: "days" returns the
    text "NA" repeated 24 times, "minutes" raises a type error, and any other
    unit returns "NA". *)
Theorem parse_age_unconverted (text m u : string) (rest : list string) :
  split " " text = m :: u :: rest ->
  py_float_str m = None ->
  parse_age (PyStr text)
  = if String.eqb u "days" then Ok (PyStr (repeat_string "NA" 24))
    else if String.eqb u "minutes" then Raise TypeError
    else Ok NA.
Proof.
  intros Hsplit Hm. unfold parse_age. simpl. rewrite Hsplit. simpl.
  rewrite Hm. simpl.
  destruct (String.eqb u "days"); [reflexivity|].
  destruct (String.eqb u "minutes"); reflexivity.
Qed.

Lemma parse_age_unconverted_witness :
  parse_age (PyStr "a few minutes ago")
  = if String.eqb "few" "days" then Ok (PyStr (repeat_string "NA" 24))
    else if String.eqb "few" "minutes" then Raise TypeError
    else Ok NA.
Proof.
  apply (parse_age_unconverted "a few minutes ago" "a" "few" ["minutes"; "ago"]);
    reflexivity.
Defined.

(** X4: the age parser reads the first two tokens only: whatever follows
    the unit, such as the word "ago", changes nothing. *)
Theorem parse_age_ignores_trailing_tokens (m u tail : string) :
  contains " " m = false ->
  contains " " u = false ->
  parse_age (PyStr (m ++ " " ++ u ++ " " ++ tail))
  = parse_age (PyStr (m ++ " " ++ u)).
Proof.
  intros Hm Hu. unfold parse_age. simpl py_split.
  change (m ++ " " ++ u ++ " " ++ tail)
    with (m ++ String " " (u ++ String " " tail)).
  change (m ++ " " ++ u) with (m ++ String " " u).
  rewrite !(split_app_sep _ _ _ Hm), (split_app_sep _ _ _ Hu),
    (split_without_sep _ _ Hu).
  reflexivity.
Qed.

Lemma parse_age_ignores_trailing_tokens_witness :
  parse_age (PyStr ("3" ++ " " ++ "hours" ++ " " ++ "ago"))
  = parse_age (PyStr ("3" ++ " " ++ "hours")).
Proof.
  apply (parse_age_ignores_trailing_tokens "3" "hours" "ago"); reflexivity.
Defined.

(** ** Record extractor *)

(** X5: the comment text of the [x]-th item is the text of the last link
    of the [x]-th subtext cell of the page, cut at its first non-breaking
    space; the comment count is that prefix converted to a float, or "NA"
    when it does not convert. *)
Theorem lookup_comments_last_link (entry_td : list node) (x : nat)
  (td a : node) (links : list node) (text first : string) (rest : list string) :
  nth_error entry_td x = Some td ->
  find_all td (named "a") = (links ++ [a])%list ->
  string_of a = Some text ->
  split nbsp text = first :: rest ->
  lookup_comments entry_td x = Ok (PyStr first)
  /\ comments_step entry_td x
     = Ok (match py_float_str first with Some f => PyFloat f | None => NA end).
Proof.
  intros Htd Hlinks Htext Hsplit.
  assert (lookup_comments entry_td x = Ok (PyStr first)) as Hlook.
  { unfold lookup_comments, py_index, py_pop. rewrite Htd. simpl.
    rewrite Hlinks, rev_unit. simpl. rewrite Htext. simpl.
    rewrite Hsplit. reflexivity. }
  split; [exact Hlook|].
  unfold comments_step. rewrite Hlook. simpl. apply parse_comments_str.
Qed.

Lemma lookup_comments_last_link_witness :
  lookup_comments (find_all page_one_subtext is_entry_td) 0 = Ok (PyStr "5")
  /\ comments_step (find_all page_one_subtext is_entry_td) 0
     = Ok (match py_float_str "5" with Some f => PyFloat f | None => NA end).
Proof.
  apply (lookup_comments_last_link (find_all page_one_subtext is_entry_td) 0
           (Tag "td" [] ["subtext"]
              [score_span "101" "10 points"; age_span "101" "3 hours ago";
               comments_link "101" five_comments])
           (comments_link "101" five_comments)
           [text_tag "a" [("href", "item?id=101")] [] "3 hours ago"]
           five_comments "5" ["comments"]); reflexivity.
Defined.

(** X6: items and subtext cells are paired by position on the page: the
    comment count of the k-th record is the one computed from the k-th
    subtext cell, whatever the identifier of the k-th item. *)
Theorem parse_html_comments_by_position (soup : node)
  (recs : list article_info) (k : nat) (r : article_info) :
  parse_html soup = Ok recs ->
  nth_error recs k = Some r ->
  comments_step (find_all soup is_entry_td) k = Ok (comments r).
Proof.
  intros Hrecs Hr.
  destruct (parse_html_Ok_inv soup recs Hrecs) as (Hlen & Hnth).
  assert (k < List.length (find_all soup is_entry_tr)) as Hlt.
  { rewrite <- Hlen. apply nth_error_Some. congruence. }
  destruct (nth_error (find_all soup is_entry_tr) k) as [tr|] eqn:Htr.
  - destruct (Hnth k tr Htr) as (r' & Hr' & Hbody).
    assert (r' = r) as -> by congruence.
    apply loop_body_Ok_inv in Hbody as (a & s & c & _ & _ & Hc & Hp & _).
    unfold comments_step. rewrite Hc. exact Hp.
  - apply nth_error_None in Htr. lia.
Qed.

Lemma parse_html_comments_by_position_witness :
  comments_step (find_all page_one_subtext is_entry_td) 1
  = Ok (comments (mk_article_info (PyFloat 0) (PyFloat 2) (PyInt 0)
                    (PyFloat 0.75) (PyInt 12))).
Proof.
  apply (parse_html_comments_by_position page_one_subtext
           [mk_article_info (PyFloat 5) (PyFloat 1) (PyInt 10) (PyFloat 3)
              (PyInt 11);
            mk_article_info (PyFloat 0) (PyFloat 2) (PyInt 0) (PyFloat 0.75)
              (PyInt 12)] 1).
  - vm_compute. reflexivity.
  - reflexivity.
Defined.

Lemma loop_first_raise (soup : node) (entry_td : list node) (trs : list node) :
  forall (x k : nat) (acc : list article_info) (tr : node) (e : exn),
    nth_error trs k = Some tr ->
    loop_body soup entry_td (x + k) tr = Raise e ->
    (forall j tr', j < k -> nth_error trs j = Some tr' ->
       exists r, loop_body soup entry_td (x + j) tr' = Ok r) ->
    loop soup entry_td x trs acc = Raise e.
Proof.
  induction trs as [|tr0 rest IH]; intros x k acc tr e Hk Hbody Hbefore.
  - destruct k; discriminate.
  - simpl. destruct k as [|k]; simpl in Hk.
    + injection Hk as ->. rewrite Nat.add_0_r in Hbody.
      rewrite Hbody. reflexivity.
    + destruct (Hbefore 0 tr0 (Nat.lt_0_succ k) eq_refl) as (r0 & Hr0).
      rewrite Nat.add_0_r in Hr0. rewrite Hr0. simpl.
      rewrite Nat.add_succ_r in Hbody.
      apply (IH (S x) k _ tr e Hk Hbody).
      intros j tr' Hj Hnth.
      destruct (Hbefore (S j) tr' (proj1 (Nat.succ_lt_mono j k) Hj) Hnth)
        as (r & Hr).
      rewrite Nat.add_succ_r in Hr. eauto.
Qed.

(** X7: the exception the extractor raises is the one of the first item, in
    document order, whose extraction raises: the items before it are
    extracted, the items after it are not looked at. *)
Theorem parse_html_first_failure (soup : node) (k : nat) (tr : node) (e : exn) :
  nth_error (find_all soup is_entry_tr) k = Some tr ->
  loop_body soup (find_all soup is_entry_td) k tr = Raise e ->
  (forall j tr', j < k ->
     nth_error (find_all soup is_entry_tr) j = Some tr' ->
     exists r, loop_body soup (find_all soup is_entry_td) j tr' = Ok r) ->
  parse_html soup = Raise e.
Proof.
  intros Hk Hbody Hbefore. unfold parse_html.
  apply (loop_first_raise soup _ _ 0 k [] tr e Hk Hbody Hbefore).
Qed.

Lemma parse_html_first_failure_witness :
  parse_html page_second_unranked = Raise AttributeError.
Proof.
  apply (parse_html_first_failure page_second_unranked 1
           (Tag "tr" [("id", "102")] ["athing"]
              [Tag "td" [] ["title"]
                 [text_tag "a" [("href", "https://example.com/")]
                    ["storylink"] "Second story"]])).
  - reflexivity.
  - vm_compute. reflexivity.
  - intros j tr' Hj Hnth.
    assert (j = 0) as -> by lia.
    injection Hnth as <-. eexists. vm_compute. reflexivity.
Defined.

(** X8: a score node that is found but whose text does not start with an
    integer is fatal, unlike a missing score node: once the age link is
    found and the rank marker converts, the loop body raises a value
    error. *)
Theorem loop_body_score_not_integer (soup : node) (entry_td : list node)
  (x : nat) (tr a sc : node) (r : float) (text : string) :
  find soup (has_attr "href" ("item?id=" ++ fmt (get tr "id"))) = Some a ->
  rank_ok tr r ->
  find soup (has_attr "id" ("score_" ++ fmt (get tr "id"))) = Some sc ->
  string_of sc = Some text ->
  py_int_str (hd EmptyString (split " " text)) = None ->
  loop_body soup entry_td x tr = Raise ValueError.
Proof.
  intros Ha (sp & marker & Hsp & Hmarker & Hr) Hsc Htext Hint.
  destruct (comments_step_total entry_td x) as (c & Hc & _).
  unfold comments_step in Hc.
  apply bind_Ok_inv in Hc as (comments_text & Hlc & Hpc).
  unfold loop_body, lookup_age, lookup_score.
  rewrite Ha, Hsc. simpl. rewrite Htext. simpl.
  rewrite Hlc. simpl. rewrite Hpc. simpl.
  rewrite Hsp. simpl. rewrite Hmarker. simpl. rewrite Hr. simpl.
  rewrite py_index_0_split. simpl. unfold py_int. rewrite Hint. reflexivity.
Qed.

Lemma loop_body_score_not_integer_witness :
  loop_body page_score_ten_points
    (find_all page_score_ten_points is_entry_td) 0
    (item_row "101" "1." "First story") = Raise ValueError.
Proof.
  apply (loop_body_score_not_integer page_score_ten_points _ 0
           (item_row "101" "1." "First story")
           (text_tag "a" [("href", "item?id=101")] [] "3 hours ago")
           (score_span "101" "ten points") 1 "ten points").
  - reflexivity.
  - exists (text_tag "span" [] ["rank"] "1."), "1.".
    repeat split; reflexivity.
  - reflexivity.
  - reflexivity.
  - reflexivity.
Defined.

(** ** Page fetcher and run loop *)

Lemma connect_loop_first_success (remaining : nat) (url : string) :
  forall (w : world) (k : nat) (page : node),
    k < remaining ->
    next_fail k url w ->
    responses w (List.length (navigations w) + k) url = Some page ->
    fst (connect_loop remaining url w) = true
    /\ page_source (snd (connect_loop remaining url w)) = Some page
    /\ List.length (navigations (snd (connect_loop remaining url w)))
       = List.length (navigations w) + S k
    /\ List.length (stdout (snd (connect_loop remaining url w)))
       = List.length (stdout w) + 2 * k.
Proof.
  induction remaining as [|n IH]; intros w k page Hk Hfail Hresp; [lia|].
  cbn [connect_loop]. unfold navigate. destruct k as [|k].
  - rewrite Nat.add_0_r in Hresp. rewrite Hresp. simpl.
    rewrite length_app. simpl. repeat split; lia.
  - pose proof (Hfail 0 (Nat.lt_0_succ k)) as H0.
    rewrite Nat.add_0_r in H0. rewrite H0.
    match goal with |- context [connect_loop n url ?w1] => set (W := w1) end.
    assert (List.length (navigations W) = List.length (navigations w) + 1)
      as HWn by (subst W; simpl; rewrite length_app; simpl; lia).
    assert (responses W = responses w) as HWr by reflexivity.
    assert (List.length (stdout W) = List.length (stdout w) + 2) as HWs
      by (subst W; simpl; rewrite !length_app; simpl; lia).
    clearbody W.
    destruct (IH W k page) as (Ht & Hp & Hlen & Hout).
    + lia.
    + intros j Hj. rewrite HWr, HWn.
      replace (List.length (navigations w) + 1 + j)
        with (List.length (navigations w) + S j) by lia.
      apply Hfail. lia.
    + rewrite HWr, HWn.
      replace (List.length (navigations w) + 1 + k)
        with (List.length (navigations w) + S k) by lia.
      exact Hresp.
    + repeat split; try assumption; lia.
Qed.

Lemma connect_loop_false_inv (remaining : nat) (url : string) :
  forall w,
    fst (connect_loop remaining url w) = false ->
    next_fail remaining url w.
Proof.
  induction remaining as [|n IH]; intros w Hf.
  - intros k Hk. lia.
  - cbn [connect_loop] in Hf. unfold navigate in Hf.
    destruct (responses w (List.length (navigations w)) url) as [page|] eqn:E;
      [discriminate|].
    match type of Hf with context [connect_loop n url ?w1] => set (W := w1) in * end.
    assert (List.length (navigations W) = List.length (navigations w) + 1)
      as HWn by (subst W; simpl; rewrite length_app; simpl; lia).
    assert (responses W = responses w) as HWr by reflexivity.
    clearbody W.
    pose proof (IH W Hf) as Hfail.
    intros [|k] Hk.
    + rewrite Nat.add_0_r. exact E.
    + specialize (Hfail k (proj2 (Nat.succ_lt_mono k n) Hk)).
      rewrite HWr, HWn in Hfail.
      replace (List.length (navigations w) + S k)
        with (List.length (navigations w) + 1 + k) by lia.
      exact Hfail.
Qed.

(** X9: when the k-th of the next three navigations is the first to
    succeed, the page fetcher answers [True] after exactly k + 1 attempts,
    the session holds the page that navigation loaded, and two lines were
    printed for each failed attempt. *)
Theorem connect_to_base_first_success (w : world) (page_number : Z) (k : nat)
  (page : node) :
  k < 3 ->
  next_fail k (page_url page_number) w ->
  responses w (List.length (navigations w) + k) (page_url page_number)
  = Some page ->
  fst (connect_to_base w page_number) = true
  /\ page_source (snd (connect_to_base w page_number)) = Some page
  /\ List.length (navigations (snd (connect_to_base w page_number)))
     = List.length (navigations w) + S k
  /\ List.length (stdout (snd (connect_to_base w page_number)))
     = List.length (stdout w) + 2 * k.
Proof.
  intros Hk Hfail Hresp. unfold connect_to_base. cbv zeta.
  apply connect_loop_first_success; assumption.
Qed.

Lemma connect_to_base_first_success_witness :
  fst (connect_to_base online_at_second 1) = true
  /\ page_source (snd (connect_to_base online_at_second 1))
     = Some page_one_subtext
  /\ List.length (navigations (snd (connect_to_base online_at_second 1)))
     = List.length (navigations online_at_second) + 2
  /\ List.length (stdout (snd (connect_to_base online_at_second 1)))
     = List.length (stdout online_at_second) + 2 * 1.
Proof.
  apply (connect_to_base_first_success online_at_second 1 1 page_one_subtext).
  - lia.
  - intros j Hj. assert (j = 0) as -> by lia. reflexivity.
  - reflexivity.
Defined.

(** X10: the page fetcher answers [False] only after three navigations
    that all failed. *)
Theorem connect_to_base_false_after_three (w : world) (page_number : Z) :
  fst (connect_to_base w page_number) = false ->
  next_fail 3 (page_url page_number) w
  /\ List.length (navigations (snd (connect_to_base w page_number)))
     = List.length (navigations w) + 3.
Proof.
  intros Hf. unfold connect_to_base in Hf |- *. cbv zeta in Hf |- *.
  pose proof (connect_loop_false_inv max_attempts _ w Hf) as Hfail.
  split; [exact Hfail|].
  apply (connect_loop_all_fail max_attempts _ w Hfail).
Qed.

Lemma connect_to_base_false_after_three_witness :
  next_fail 3 (page_url 1) online_after_three
  /\ List.length (navigations (snd (connect_to_base online_after_three 1)))
     = List.length (navigations online_after_three) + 3.
Proof.
  apply (connect_to_base_false_after_three online_after_three 1).
  reflexivity.
Defined.

(** What a run of one page that returned has done. *)
Lemma run_process_Ok_inv (page_number : Z) (w w' : world) :
  run_process page_number w = Ok w' ->
  responses w' = responses w
  /\ List.length (navigations w) + 1 <= List.length (navigations w')
  /\ List.length (navigations w') <= List.length (navigations w) + 3
  /\ ((fst (connect_to_base w page_number) = false /\ csvfile w' = csvfile w)
      \/ exists page recs,
           fst (connect_to_base w page_number) = true
           /\ page_source (snd (connect_to_base w page_number)) = Some page
           /\ parse_html page = Ok recs
           /\ csvfile w' = (csvfile w ++ map DictRow recs)%list).
Proof.
  unfold run_process.
  pose proof (connect_loop_frame max_attempts (page_url page_number) w)
    as (Hr & Hc & Hup & _ & Hlow).
  specialize (Hlow (Nat.lt_0_succ 2)).
  change (connect_loop max_attempts (page_url page_number) w)
    with (connect_to_base w page_number) in Hr, Hc, Hup, Hlow.
  destruct (connect_to_base w page_number) as [ok w1].
  simpl in Hr, Hc, Hup, Hlow |- *.
  destruct ok.
  - destruct (page_source w1) as [page|]; [|discriminate]. simpl.
    destruct (parse_html page) as [recs|e] eqn:E; [|discriminate]. simpl.
    intros H. injection H as <-. simpl.
    repeat split; try assumption; try lia.
    right. exists page, recs. rewrite Hc. auto.
  - intros H. injection H as <-. simpl.
    repeat split; try assumption; try lia. left. auto.
Qed.



Lemma run_process_raises (page_number : Z) (w : world) (page : node) (e : exn) :
  fst (connect_to_base w page_number) = true ->
  page_source (snd (connect_to_base w page_number)) = Some page ->
  parse_html page = Raise e ->
  run_process page_number w = Raise e.
Proof.
  unfold run_process.
  destruct (connect_to_base w page_number) as [ok w1]. simpl.
  intros -> -> Hp. simpl. rewrite Hp. reflexivity.
Qed.

(** X12: the run of one page catches nothing of the extractor: when one of
    the three navigations loads a page on which the extractor raises, the
    run raises that same exception. *)
Theorem run_process_propagates (page_number : Z) (w : world) (k : nat)
  (page : node) (e : exn) :
  k < 3 ->
  next_fail k (page_url page_number) w ->
  responses w (List.length (navigations w) + k) (page_url page_number)
  = Some page ->
  parse_html page = Raise e ->
  run_process page_number w = Raise e.
Proof.
  intros Hk Hfail Hresp Hp.
  destruct (connect_loop_first_success max_attempts (page_url page_number)
              w k page Hk Hfail Hresp) as (Hok & Hpage & _).
  exact (run_process_raises page_number w page e Hok Hpage Hp).
Qed.

Lemma run_process_propagates_witness :
  run_process 1 online_no_age_link = Raise AttributeError.
Proof.
  apply (run_process_propagates 1 online_no_age_link 0 page_no_age_link).
  - lia.
  - intros j Hj. lia.
  - reflexivity.
  - vm_compute. reflexivity.
Defined.

Lemma connect_loop_navigations_all_fail (remaining : nat) (url : string) :
  forall w,
    next_fail remaining url w ->
    navigations (snd (connect_loop remaining url w))
    = (navigations w ++ repeat url remaining)%list.
Proof.
  induction remaining as [|n IH]; intros w Hfail.
  - simpl. rewrite app_nil_r. reflexivity.
  - cbn [connect_loop]. unfold navigate.
    pose proof (Hfail 0 (Nat.lt_0_succ n)) as H0.
    rewrite Nat.add_0_r in H0. rewrite H0.
    match goal with |- context [connect_loop n url ?w1] => set (W := w1) end.
    assert (navigations W = (navigations w ++ [url])%list) as HWn by reflexivity.
    assert (responses W = responses w) as HWr by reflexivity.
    clearbody W.
    rewrite (IH W).
    + rewrite HWn, <- app_assoc. reflexivity.
    + intros k Hk. rewrite HWr, HWn, length_app. simpl.
      replace (List.length (navigations w) + 1 + k)
        with (List.length (navigations w) + S k) by lia.
      apply Hfail. lia.
Qed.

Lemma never_responds_next_fail (n : nat) (url : string) (w : world) :
  never_responds w -> next_fail n url w.
Proof. intros H k _. apply H. Qed.

Lemma run_process_never_responds (page_number : Z) (w : world) :
  never_responds w ->
  exists w',
    run_process page_number w = Ok w'
    /\ never_responds w'
    /\ csvfile w' = csvfile w
    /\ navigations w'
       = (navigations w ++ repeat (page_url page_number) 3)%list.
Proof.
  intros Hw.
  pose proof (never_responds_next_fail 3 (page_url page_number) w Hw) as Hfail.
  destruct (connect_loop_all_fail max_attempts _ w Hfail) as (Hf & _).
  pose proof (connect_loop_navigations_all_fail max_attempts _ w Hfail) as Hnav.
  destruct (connect_loop_frame max_attempts (page_url page_number) w)
    as (Hr & Hc & _).
  unfold run_process, connect_to_base. cbv zeta.
  destruct (connect_loop max_attempts (page_url page_number) w) as [ok w1].
  simpl in Hf, Hnav, Hr, Hc. subst ok.
  eexists. split; [reflexivity|]. simpl.
  repeat split; try assumption.
  intros n url. simpl. rewrite Hr. apply Hw.
Qed.

Lemma pages_loop_never_responds (remaining : nat) :
  forall (page : Z) (w : world),
    never_responds w ->
    exists w',
      pages_loop remaining page w = Ok w'
      /\ csvfile w' = csvfile w
      /\ navigations w'
         = (navigations w
            ++ flat_map (fun p => repeat (page_url p) 3)
                 (pages_from page remaining))%list.
Proof.
  induction remaining as [|n IH]; intros page w Hw.
  - exists w. simpl. rewrite app_nil_r. auto.
  - cbn [pages_loop pages_from flat_map].
    match goal with |- context [run_process page ?w0] =>
      destruct (run_process_never_responds page w0) as (w1 & Hrun & Hw1 & Hc & Hn)
    end; [exact Hw|].
    rewrite Hrun. simpl bind. simpl in Hc, Hn.
    destruct (IH (page + 1)%Z w1 Hw1) as (w' & Hloop & Hc' & Hn').
    exists w'. split; [exact Hloop|]. split; [congruence|].
    rewrite Hn', Hn. simpl. rewrite <- app_assoc. reflexivity.
Qed.

(** X13: when no navigation ever succeeds, the whole run still returns: it
    asks three times for each of the pages 1 to 5, in that order, and the
    output file receives the header row and nothing else. *)
Theorem main_never_responds (w : world) :
  never_responds w ->
  exists w',
    main w = Ok w'
    /\ csvfile w' = (csvfile w ++ [HeaderRow fieldnames])%list
    /\ navigations w'
       = (navigations w
          ++ flat_map (fun p => repeat (page_url p) 3) [1; 2; 3; 4; 5]%Z)%list.
Proof.
  intros Hw. unfold main. cbv zeta.
  change (Z.to_nat (5 + 1 - 1)) with 5.
  match goal with |- context [pages_loop 5 1 ?w0] =>
    destruct (pages_loop_never_responds 5 1 w0) as (w' & Hloop & Hc & Hn)
  end; [exact Hw|].
  exists w'. split; [exact Hloop|]. split; [exact Hc|exact Hn].
Qed.

Lemma main_never_responds_witness :
  exists w',
    main offline = Ok w'
    /\ csvfile w' = (csvfile offline ++ [HeaderRow fieldnames])%list
    /\ navigations w'
       = (navigations offline
          ++ flat_map (fun p => repeat (page_url p) 3) [1; 2; 3; 4; 5]%Z)%list.
Proof.
  apply (main_never_responds offline). intros n url. reflexivity.
Defined.

Lemma pages_loop_Ok_inv (remaining : nat) :
  forall (page : Z) (w w' : world),
    pages_loop remaining page w = Ok w' ->
    (exists rows, csvfile w' = (csvfile w ++ map DictRow rows)%list)
    /\ List.length (navigations w) + remaining <= List.length (navigations w')
    /\ List.length (navigations w')
       <= List.length (navigations w) + 3 * remaining.
Proof.
  induction remaining as [|n IH]; intros page w w' H.
  - simpl in H. injection H as <-.
    split; [exists []; simpl; rewrite app_nil_r; reflexivity|lia].
  - cbn [pages_loop] in H.
    apply bind_Ok_inv in H as (w1 & Hrun & Hloop).
    apply run_process_Ok_inv in Hrun as (_ & Hlow & Hup & Hcsv).
    simpl in Hlow, Hup.
    assert (exists recs, csvfile w1 = (csvfile w ++ map DictRow recs)%list)
      as (recs & Hrecs).
    { destruct Hcsv as [[_ Hc]|(p & recs & _ & _ & _ & Hc)]; simpl in Hc.
      - exists []. simpl. rewrite app_nil_r. exact Hc.
      - exists recs. exact Hc. }
    destruct (IH _ _ _ Hloop) as ((rows & Hrows) & Hlow' & Hup').
    split; [|lia].
    exists (recs ++ rows)%list.
    rewrite Hrows, Hrecs, map_app, app_assoc. reflexivity.
Qed.

(** X14: when the whole run returns, the output file has received the
    header row once, followed by record rows only, and the session has been
    asked for a page between 5 and 15 times. *)
Theorem main_output_shape (w w' : world) :
  main w = Ok w' ->
  (exists rows,
     csvfile w'
     = (csvfile w ++ HeaderRow fieldnames :: map DictRow rows)%list)
  /\ List.length (navigations w) + 5 <= List.length (navigations w')
  /\ List.length (navigations w') <= List.length (navigations w) + 15.
Proof.
  unfold main. cbv zeta. change (Z.to_nat (5 + 1 - 1)) with 5. intros H.
  apply pages_loop_Ok_inv in H as ((rows & Hrows) & Hlow & Hup).
  simpl in Hrows, Hlow, Hup.
  split; [|lia].
  exists rows. rewrite Hrows, <- app_assoc. reflexivity.
Qed.

Lemma main_output_shape_witness :
  (exists rows,
     csvfile (final_world online)
     = (csvfile online ++ HeaderRow fieldnames :: map DictRow rows)%list)
  /\ List.length (navigations online) + 5
     <= List.length (navigations (final_world online))
  /\ List.length (navigations (final_world online))
     <= List.length (navigations online) + 15.
Proof.
  apply (main_output_shape online (final_world online)).
  vm_compute. reflexivity.
Defined.

(** X15: when the first navigation of the run loads a page on which the
    extractor raises, the main block raises that same exception. *)
Theorem main_raises_on_first_page (w : world) (page : node) (e : exn) :
  responses w (List.length (navigations w)) (page_url 1) = Some page ->
  parse_html page = Raise e ->
  main w = Raise e.
Proof.
  intros Hresp Hp. unfold main. cbv zeta.
  change (Z.to_nat (5 + 1 - 1)) with 5. cbn [pages_loop].
  match goal with |- context [run_process 1 ?w0] =>
    destruct (connect_loop_first_success max_attempts (page_url 1) w0 0 page)
      as (Hok & Hpage & _)
  end.
  - unfold max_attempts. lia.
  - intros k Hk. lia.
  - simpl. rewrite Nat.add_0_r. exact Hresp.
  - rewrite (run_process_raises 1 _ page e Hok Hpage Hp). reflexivity.
Qed.

Lemma main_raises_on_first_page_witness :
  main online_no_age_link = Raise AttributeError.
Proof.
  apply (main_raises_on_first_page online_no_age_link page_no_age_link).
  - reflexivity.
  - vm_compute. reflexivity.
Defined.

(** ** Record extractor: the values of the fields *)

(** X16: an item whose last subtext link reads "discuss" gets the comment
    count "NA" and not 0, in every record built for it. *)
Theorem loop_body_discuss_is_NA (soup : node) (entry_td : list node) (x : nat)
  (tr td a : node) (links : list node) (r : article_info) :
  nth_error entry_td x = Some td ->
  find_all td (named "a") = (links ++ [a])%list ->
  string_of a = Some "discuss" ->
  loop_body soup entry_td x tr = Ok r ->
  comments r = NA.
Proof.
  intros Htd Hlinks Htext Hr.
  apply loop_body_Ok_inv in Hr as (_ & _ & c & _ & _ & Hc & Hp & _).
  assert (lookup_comments entry_td x = Ok (PyStr "discuss")) as Hlook.
  { unfold lookup_comments, py_index, py_pop. rewrite Htd. simpl.
    rewrite Hlinks, rev_unit. simpl. rewrite Htext. reflexivity. }
  rewrite Hlook in Hc. injection Hc as <-.
  rewrite parse_comments_str in Hp. injection Hp as Hp.
  symmetry. exact Hp.
Qed.

Lemma loop_body_discuss_is_NA_witness :
  comments (mk_article_info NA (PyFloat 1) (PyInt 7) (PyFloat 48) (PyInt 12))
  = NA.
Proof.
  apply (loop_body_discuss_is_NA page_markers_2_1
           (find_all page_markers_2_1 is_entry_td) 1
           (item_row "102" "1." "Second story")
           (Tag "td" [] ["subtext"]
              [score_span "102" "7 points"; age_span "102" "2 days ago";
               comments_link "102" "discuss"])
           (comments_link "102" "discuss")
           [text_tag "a" [("href", "item?id=102")] [] "2 days ago"]).
  - reflexivity.
  - reflexivity.
  - reflexivity.
  - vm_compute. reflexivity.
Defined.

(** X17: in the record of a well-formed item the rank is the number of its
    rank marker, the score is the integer its score text starts with (0
    without a score node), the age is the magnitude of its age text scaled to
    hours by the unit, and the title length is the number of characters of
    its title. *)
Theorem parse_html_record_values (soup : node) (recs : list article_info)
  (k : nat) (tr : node) (fl : item_fields) :
  parse_html soup = Ok recs ->
  nth_error (find_all soup is_entry_tr) k = Some tr ->
  well_formed_item soup tr fl ->
  exists r,
    nth_error recs k = Some r
    /\ rank r = PyFloat (f_rank fl)
    /\ score r = PyInt (f_score fl)
    /\ age r = PyFloat (hours (f_magnitude fl) (f_unit fl))
    /\ title_length r = PyInt (Z.of_nat (String.length (f_title fl))).
Proof.
  intros Hrecs Hk Hfl.
  destruct (proj2 (parse_html_Ok_inv soup recs Hrecs) k tr Hk)
    as (r & Hr & Hbody).
  destruct (loop_body_well_formed soup (find_all soup is_entry_td) k tr fl Hfl)
    as (c & _ & Hbody').
  assert (r = record_of c fl) as -> by congruence.
  exists (record_of c fl). repeat split. exact Hr.
Qed.

Lemma parse_html_record_values_witness :
  exists r,
    nth_error
      [mk_article_info (PyFloat 5) (PyFloat 1) (PyInt 10) (PyFloat 3) (PyInt 11);
       mk_article_info (PyFloat 0) (PyFloat 2) (PyInt 0) (PyFloat 0.75)
         (PyInt 12)] 1 = Some r
    /\ rank r = PyFloat 2
    /\ score r = PyInt 0
    /\ age r = PyFloat (hours 45 "minutes")
    /\ title_length r = PyInt (Z.of_nat (String.length "Second story")).
Proof.
  apply (parse_html_record_values page_one_subtext _ 1
           (item_row "102" "2." "Second story")
           (mk_item_fields 45 "minutes" 2 0 "Second story")).
  - vm_compute. reflexivity.
  - reflexivity.
  - unfold well_formed_item, age_link_ok, rank_ok, score_ok, title_ok.
    repeat match goal with
           | |- _ /\ _ => split
           | |- exists _, _ => eexists
           | |- _ = _ => reflexivity
           | |- _ \/ _ => left; split; reflexivity
           end.
Defined.
